(** * Study statistics and dashboard aggregation of the study-group backend

    A shallow embedding of the two handlers of [backend/routes/users.js]
    that carry domain logic:

    - [POST /study-time] (lines 123-178): validation of the request body,
      the read-modify-write of the user's [studyStats], the streak rule and
      the achievement thresholds;
    - [GET /dashboard] (lines 181-281): the five queries, the two
      [reduce] sums over completed sessions and the formatting of the
      reply.

    Beside them: the key filter of [PUT /profile], the group count of
    [GET /stats] and the study-time card of the dashboard page.

    Modelling conventions.

    - A JavaScript number that holds an integer is a [Z].  The two counters
      that grow with the request data, [totalStudyTime] and
      [sessionsCompleted], are added as the runtime adds doubles: the exact
      sum rounded to the nearest double ([JS.toDouble], the identity up to
      2^53), and a number is printed as [String] prints it, in exponent
      form from 10^21.  The streak, the day counts and the sums of the
      dashboard are counted in days and minutes of sessions; their
      arithmetic ([+], [-], [Math.floor] of a quotient) is the arithmetic
      of [Z], which agrees with the doubles of the runtime as long as the
      values stay in the safe-integer range.
    - A string is the list of the bytes of its UTF-8 encoding.
    - A [Date] is its number of milliseconds since the epoch, a [Z].  Local
      time is UTC shifted by a fixed offset [off] (milliseconds); daylight
      saving changes are outside the model.
    - The collections of the document store are explicit state: the users
      are a finite map from identifier to document, groups and sessions are
      lists in the store's natural order.  A handler is a function from the
      store and the request to a reply and the store after the request.
    - A thrown exception caught by the handler's [try]/[catch] is the reply
      [ServerError] (HTTP 500) with the store unchanged: nothing is written
      before [user.save()]. *)

From Stdlib Require Import ZArith List Ascii String Lia DecimalString DecimalZ Sorted.
From stdpp Require Import gmap strings.
Import ListNotations.

Local Open Scope Z_scope.

(** ** JavaScript values of a request body *)

Module JS.

#[local] Set Warnings "-register-all".

(** The values a JSON body field can hold, and the absent field. *)
Inductive jsval : Type :=
| JUndefined                 (* the field is missing *)
| JNull
| JBool (b : bool)
| JInt (z : Z)               (* a number whose value is an integer *)
| JNonInt (floor : Z)        (* any other number, such as 2.5, with its floor *)
| JStr (s : string)
| JArr (l : list jsval)      (* an array *)
| JObj.                      (* an object that is not an array *)

(** The double nearest to an integer, ties to the even significand: an
    integer of at most 53 bits is kept, a longer one is rounded to 53
    significant bits. *)
Definition toDouble (n : Z) : Z :=
  if Z.abs n <=? 2 ^ 53 then n
  else
    let ulp := 2 ^ (Z.log2 (Z.abs n) - 52) in
    let q := Z.abs n / ulp in
    let r := Z.abs n mod ulp in
    let q' := if 2 * r <? ulp then q
              else if ulp <? 2 * r then q + 1
              else if Z.even q then q else q + 1 in
    Z.sgn n * (q' * ulp).

(** [a + b] on two numbers that hold integers. *)
Definition jsAdd (a b : Z) : Z := toDouble (a + b).

(** The decimal numeral of an integer. *)
Definition string_of_Z (z : Z) : string :=
  NilEmpty.string_of_int (Z.to_int z).

(** [String(n)] for a number [n] that holds an integer: its decimal
    numeral below 10^21; from 10^21 on the exponent form, such as [1e+21],
    which stands here as ["e"]: no integer pattern matches it. *)
Definition numberString (z : Z) : string :=
  if Z.abs z <? 10 ^ 21 then string_of_Z z else "e".

(** [String(v)]; an array is the strings of its elements joined by commas,
    where [null] and [undefined] give the empty string. *)
Fixpoint jsString (v : jsval) : string :=
  match v with
  | JUndefined => "undefined"
  | JNull => "null"
  | JBool true => "true"
  | JBool false => "false"
  | JInt z => numberString z
  | JNonInt _ => "."
  | JStr s => s
  | JObj => "[object Object]"
  | JArr l =>
    (fix join (l : list jsval) : string :=
       match l with
       | [] => EmptyString
       | x :: r =>
         let e := match x with
                  | JUndefined | JNull => EmptyString
                  | _ => jsString x
                  end in
         match r with
         | [] => e
         | _ => e +:+ "," +:+ join r
         end
       end) l
  end.

(** One or more decimal digits, read as a number. *)
Definition digits (s : string) : option Z :=
  match s with
  | EmptyString => None
  | _ => option_map Z.of_uint (NilEmpty.uint_of_string s)
  end.

(** The strings matched by [/^[-+]?[0-9]+$/], with the number they denote
    under [Number(...)]. *)
Definition intOfString (s : string) : option Z :=
  match s with
  | String "+" r => digits r
  | String "-" r => option_map Z.opp (digits r)
  | _ => digits s
  end.

(** [Number(str)] on the strings that arise here: an integer numeral gives
    the double nearest to it, anything else is not a number. *)
Definition numberOfString (str : string) : option Z :=
  option_map toDouble (intOfString str).

(** [a += v] on a numeric field holding [a]: [a + v], then the cast of the
    result to the number type of the field.  With a string, an array or an
    object as operand [+] concatenates the string of [a] and the string of
    the operand, and the cast reads the concatenation back as a number when
    it is a numeral and fails otherwise.  [None] is a failed cast.  The
    operands that pass the validator are integers below 10^21, strings
    matching the integer pattern and arrays ([validDuration_inv] below);
    for the others the result is given for completeness, [None] standing
    also for a sum that is not an integer. *)
Definition plusAssign (a : Z) (v : jsval) : option Z :=
  match v with
  | JInt z => Some (jsAdd a z)
  | JStr _ | JArr _ | JObj => numberOfString (numberString a +:+ jsString v)
  | JNull => Some a
  | JBool b => Some (jsAdd a (if b then 1 else 0))
  | JUndefined => None
  | JNonInt _ => None
  end.

(** [Array.prototype.includes] on an array of strings. *)
Definition includes (l : list string) (x : string) : bool :=
  existsb (String.eqb x) l.

End JS.

(** ** The validator of the request body *)

Module Validator.
Import JS.

(** The string the validation library checks for a value that is not
    looked into: the value converted with [String], where [undefined] and
    [null] become the empty string.  A number that is not an integer prints
    with a fraction or an exponent, which no integer pattern matches; it
    stands here as ["."]. *)
Definition toStringShallow (v : jsval) : string :=
  match v with
  | JUndefined | JNull => EmptyString
  | _ => jsString v
  end.

(** The string the validation library checks: an array that is not empty
    is replaced by its first element, which is not looked into. *)
Definition toString (v : jsval) : string :=
  match v with
  | JArr (x :: _) => toStringShallow x
  | _ => toStringShallow v
  end.

(** [isInt(str, { min })]: the integer pattern matches and the number read
    from the string is at least [min]. *)
Definition isInt (min : Z) (str : string) : bool :=
  match intOfString str with
  | Some n => min <=? n
  | None => false
  end.

(** [body('duration').isInt({ min: 1 })] (line 124): [true] when the
    validation result has no error.  The library checks a field that holds
    an array element by element, so an empty array has no error. *)
Definition validDuration (duration : jsval) : bool :=
  match duration with
  | JArr l => forallb (fun value => isInt 1 (toString value)) l
  | _ => isInt 1 (toString duration)
  end.

End Validator.

(** ** Documents of the store and replies of the handlers *)

(** Modelled from the spec: the schema of [user.studyStats] (the file
    [models/User.js] is not among the sources).  Section 3 gives the study
    time in minutes and the two counters as integers and the achievements
    as identifiers; the handlers use them as numbers and as an array of
    strings. *)
Record StudyStats : Type := mkStats {
  totalStudyTime : Z;              (* minutes *)
  sessionsCompleted : Z;
  streak : Z;
  achievements : list string
}.

(** Modelled from the spec: the user document of section 6, with
    [studyStats] and an optional [lastStudyDate], and the two name fields
    the dashboard reads from a populated host. *)
Record User : Type := mkUser {
  firstName : string;
  lastName : string;
  studyStats : StudyStats;
  lastStudyDate : option Z         (* a Date, or absent *)
}.

(** What a handler sends: [res.json(...)], or one of its error statuses. *)
Inductive reply (A : Type) : Type :=
| Ok (body : A)                    (* 200 *)
| BadRequest                       (* 400, validation errors *)
| NotFound                         (* 404, 'User not found' *)
| ServerError.                     (* 500, from the catch block *)

Arguments Ok {A} body.
Arguments BadRequest {A}.
Arguments NotFound {A}.
Arguments ServerError {A}.

(** [GET /profile/:userId] (lines 11-28), the handler that guards the
    missing user: [if (!user) return res.status(404)...]. *)
Definition get_profile (users : gmap string User) (userId : string) : reply User :=
  match users !! userId with
  | None => NotFound
  | Some user => Ok user
  end.

(** ** Dates *)

Module JSDate.

(** The milliseconds of a day, [1000 * 60 * 60 * 24] (line 143). *)
Definition msPerDay : Z := 1000 * 60 * 60 * 24.

(** [d.setHours(0, 0, 0, 0)]: the local midnight at or before [d]. *)
Definition setHours0 (off d : Z) : Z :=
  d - (d + off) mod msPerDay.

(** [d.getDay()]: the local day of the week, 0 for Sunday.  The epoch fell
    on a Thursday. *)
Definition getDay (off d : Z) : Z :=
  ((d + off) / msPerDay + 4) mod 7.

(** [c.setDate(d.getDate() + k)] on a copy [c] of [d]: the same local time
    [k] days later (earlier for a negative [k]); the day of the month
    overflows into the neighbouring months. *)
Definition addDays (d k : Z) : Z :=
  d + k * msPerDay.

End JSDate.

(** ** The study-time handler *)

Module StudyTime.
Import JS Validator.
Export JSDate.

(** Lines 142-143: [lastStudyDate || new Date(0)], then the floor of the
    elapsed time in days.  [Z.div] rounds down, as [Math.floor] does. *)
Definition diffDays (lastStudyDate : option Z) (today : Z) : Z :=
  let last := match lastStudyDate with Some d => d | None => 0 end in
  (today - last) / msPerDay.

(** Lines 145-149. *)
Definition updateStreak (streak0 diff : Z) : Z :=
  if diff =? 1 then streak0 + 1
  else if 1 <? diff then 1
  else streak0.

(** Lines 154-163: the three thresholds, each pushing onto the local
    array [achievements] when reached and not yet in the user's list. *)
Definition checkAchievements (total streak0 sessions : Z) (have : list string)
  : list string :=
  let a0 := [] in
  let a1 := if (60 <=? total) && negb (includes have "first-hour")
            then a0 ++ ["first-hour"] else a0 in
  let a2 := if (7 <=? streak0) && negb (includes have "week-streak")
            then a1 ++ ["week-streak"] else a1 in
  let a3 := if (10 <=? sessions) && negb (includes have "session-master")
            then a2 ++ ["session-master"] else a2 in
  a3.

(** Lines 137-165: the update of the user document for a duration and the
    current time [today], with the list of achievements unlocked by this
    call.  [None] when the assignment to [totalStudyTime] does not cast to a
    number, in which case [user.save()] rejects. *)
Definition recordStudyTime (user : User) (duration : jsval) (today : Z)
  : option (User * list string) :=
  let stats := studyStats user in
  match plusAssign (totalStudyTime stats) duration with
  | None => None
  | Some total =>
    let sessions := jsAdd (sessionsCompleted stats) 1 in
    let streak1 := updateStreak (streak stats) (diffDays (lastStudyDate user) today) in
    let new := checkAchievements total streak1 sessions (achievements stats) in
    Some ({| firstName := firstName user;
             lastName := lastName user;
             studyStats := {| totalStudyTime := total;
                              sessionsCompleted := sessions;
                              streak := streak1;
                              achievements := achievements stats ++ new |};
             lastStudyDate := Some today |},
          new)
  end.

(** The body of the 200 reply (lines 169-173), without its constant
    [message]. *)
Record StudyTimeBody : Type := mkBody {
  stats : StudyStats;
  newAchievements : list string
}.

(** [router.post('/study-time', ...)]: the request of the authenticated user
    [uid] with body field [duration], at time [now], on the store [users]. *)
Definition post_study_time (users : gmap string User) (uid : string)
    (duration : jsval) (now : Z) : reply StudyTimeBody * gmap string User :=
  if negb (validDuration duration) then (BadRequest, users)
  else
    match users !! uid with
    | None => (ServerError, users)     (* reading [user.studyStats] of null throws *)
    | Some user =>
      match recordStudyTime user duration now with
      | None => (ServerError, users)   (* [user.save()] rejects *)
      | Some (user', new) =>
        (Ok {| stats := studyStats user'; newAchievements := new |},
         <[uid := user']> users)
      end
    end.

(** The user after a call, and the achievements it unlocked, for a
    duration sent as a number. *)
Definition userAfter (user : User) (d today : Z) : User :=
  match recordStudyTime user (JInt d) today with
  | Some (user', _) => user'
  | None => user
  end.

Definition unlockedBy (user : User) (d today : Z) : list string :=
  match recordStudyTime user (JInt d) today with
  | Some (_, new) => new
  | None => []
  end.

End StudyTime.

(** ** The dashboard handler *)

Module Dashboard.
Import JSDate.

(** Modelled from the spec: the group document of section 6
    ([models/Group.js] is not among the sources), with the fields the
    dashboard queries and formats; [members] holds the [user] of each
    member entry. *)
Record Group : Type := mkGroup {
  gid : string;                     (* _id *)
  name : string;
  subject : string;
  memberCount : option Z;
  updatedAt : Z;
  members : list string;
  isActive : bool
}.

(** Modelled from the spec: an entry of [session.participants], holding
    [user] and [duration] (section 6). *)
Record Participant : Type := mkParticipant {
  p_user : string;
  p_duration : option Z             (* minutes, or absent *)
}.

(** Modelled from the spec: the session document of section 6
    ([models/StudySession.js] is not among the sources); [group] and [host]
    are references to a group and to a user. *)
Record Session : Type := mkSession {
  sid : string;                     (* _id *)
  title : string;
  group : option string;
  host : string;
  participants : list Participant;
  scheduledStart : Z;
  actualEnd : option Z;
  status : string
}.

(** The collections the handler queries. *)
Record Store : Type := mkStore {
  users : gmap string User;
  groups : list Group;
  sessions : list Session
}.

(** *** Queries *)

Section Sorting.
Context {A : Type} (before : A -> A -> bool).

Fixpoint insertSorted (x : A) (l : list A) : list A :=
  match l with
  | [] => [x]
  | y :: l' => if before x y then x :: l else y :: insertSorted x l'
  end.

(** [.sort(...)] of a query, as a stable insertion sort. *)
Definition sortBy (l : list A) : list A :=
  fold_right insertSorted [] l.

End Sorting.

(** The filter ['participants.user': uid]: some entry is the user's. *)
Definition participates (uid : string) (s : Session) : bool :=
  existsb (fun p => String.eqb (p_user p) uid) (participants s).

(** Lines 186-193: the active groups of the user, latest update first, at
    most five. *)
Definition findRecentGroups (db : Store) (uid : string) : list Group :=
  firstn 5
    (sortBy (fun g1 g2 => updatedAt g2 <=? updatedAt g1)
       (List.filter (fun g => existsb (String.eqb uid) (members g) && isActive g)
          (groups db))).

(** Lines 196-208: the sessions the user hosts or takes part in that start
    at [now] or later and are scheduled or active, earliest first, at most
    five. *)
Definition findUpcomingSessions (db : Store) (uid : string) (now : Z) : list Session :=
  firstn 5
    (sortBy (fun s1 s2 => scheduledStart s1 <=? scheduledStart s2)
       (List.filter (fun s => (String.eqb (host s) uid || participates uid s)
                         && (now <=? scheduledStart s)
                         && (String.eqb (status s) "scheduled"
                             || String.eqb (status s) "active"))
          (sessions db))).

(** Lines 216-220 and 233-237: the completed sessions of the user whose
    [actualEnd] lies in [[from, to)]. *)
Definition completedBetween (uid : string) (from to : Z) (s : Session) : bool :=
  participates uid s
  && match actualEnd s with
     | Some e => (from <=? e) && (e <? to)
     | None => false
     end
  && String.eqb (status s) "completed".

Definition findCompleted (db : Store) (uid : string) (from to : Z) : list Session :=
  List.filter (completedBetween uid from to) (sessions db).

(** *** The two sums *)

(** The body of the [reduce] callbacks (lines 223-224 and 240-241): the
    first participant entry of the user, and [participant?.duration || 0]. *)
Definition userDuration (uid : string) (session : Session) : Z :=
  match find (fun p => String.eqb (p_user p) uid) (participants session) with
  | Some participant =>
    match p_duration participant with
    | Some d => d
    | None => 0
    end
  | None => 0
  end.

(** [sessions.reduce((total, session) => total + ..., 0)]. *)
Definition progress (uid : string) (l : list Session) : Z :=
  fold_left (fun total session => total + userDuration uid session) l 0.

(** *** Formatting *)

(** A string holds the UTF-8 bytes of the text.  The white space that
    [trim] removes is the white space and the line terminators of the
    language: U+0009 to U+000D and U+0020, one byte each, U+00A0, two
    bytes, and U+1680, U+2000 to U+200A, U+2028, U+2029, U+202F, U+205F,
    U+3000 and U+FEFF, three bytes each. *)
Definition asciiSpace (c : ascii) : bool :=
  (Ascii.eqb c " " || (Nat.leb 9 (nat_of_ascii c) && Nat.leb (nat_of_ascii c) 13))%bool.

Definition white2 (b1 b2 : nat) : bool :=
  (Nat.eqb b1 194 && Nat.eqb b2 160)%bool.

Definition white3 (b1 b2 b3 : nat) : bool :=
  (Nat.eqb b1 225 && Nat.eqb b2 154 && Nat.eqb b3 128
   || Nat.eqb b1 226 && Nat.eqb b2 128
      && (Nat.leb 128 b3 && Nat.leb b3 138
          || Nat.eqb b3 168 || Nat.eqb b3 169 || Nat.eqb b3 175)
   || Nat.eqb b1 226 && Nat.eqb b2 129 && Nat.eqb b3 159
   || Nat.eqb b1 227 && Nat.eqb b2 128 && Nat.eqb b3 128
   || Nat.eqb b1 239 && Nat.eqb b2 187 && Nat.eqb b3 191)%bool.

(** The number of bytes of the white space character at the head of the
    string, 0 when the string does not start with one. *)
Definition whiteLen (s : string) : nat :=
  match s with
  | EmptyString => 0
  | String c1 r1 =>
    if asciiSpace c1 then 1
    else
      match r1 with
      | EmptyString => 0
      | String c2 r2 =>
        if white2 (nat_of_ascii c1) (nat_of_ascii c2) then 2
        else
          match r2 with
          | EmptyString => 0
          | String c3 _ =>
            if white3 (nat_of_ascii c1) (nat_of_ascii c2) (nat_of_ascii c3)
            then 3 else 0
          end
      end
  end.

(** [String.prototype.trimStart]. *)
Fixpoint trimStart (s : string) : string :=
  match s with
  | EmptyString => EmptyString
  | String _ r1 =>
    match whiteLen s with
    | 1%nat => trimStart r1
    | 2%nat => match r1 with
               | String _ r2 => trimStart r2
               | EmptyString => s
               end
    | 3%nat => match r1 with
               | String _ (String _ r3) => trimStart r3
               | _ => s
               end
    | _ => s
    end
  end.

(** The string is made of white space characters only. *)
Fixpoint allWhite (s : string) : bool :=
  match s with
  | EmptyString => true
  | String _ r1 =>
    match whiteLen s with
    | 1%nat => allWhite r1
    | 2%nat => match r1 with
               | String _ r2 => allWhite r2
               | EmptyString => false
               end
    | 3%nat => match r1 with
               | String _ (String _ r3) => allWhite r3
               | _ => false
               end
    | _ => false
    end
  end.

(** [String.prototype.trimEnd]: the string up to the white space it ends
    with. *)
Fixpoint trimEnd (s : string) : string :=
  match s with
  | EmptyString => EmptyString
  | String c r => if allWhite s then EmptyString else String c (trimEnd r)
  end.

(** [String.prototype.trim]. *)
Definition trim (s : string) : string := trimEnd (trimStart s).

(** An element of [recentGroups] in the reply (lines 245-251). *)
Record GroupCard : Type := mkGroupCard {
  gc_id : string;
  gc_name : string;
  gc_subject : string;
  gc_memberCount : Z;
  gc_lastActivity : Z
}.

Definition formatGroup (g : Group) : GroupCard :=
  {| gc_id := gid g;
     gc_name := name g;
     gc_subject := subject g;
     gc_memberCount := match memberCount g with Some n => n | None => 0 end;
     gc_lastActivity := updatedAt g |}.

(** An element of [upcomingSessions] in the reply (lines 254-260). *)
Record SessionCard : Type := mkSessionCard {
  sc_id : string;
  sc_title : string;
  sc_groupName : string;
  sc_time : Z;
  sc_host : string
}.

(** [.populate('group', 'name')]: the referenced group, when it exists. *)
Definition populateGroup (db : Store) (ref : option string) : option Group :=
  match ref with
  | Some r => find (fun g => String.eqb (gid g) r) (groups db)
  | None => None
  end.

Definition formatSession (db : Store) (s : Session) : SessionCard :=
  let groupName :=
    match populateGroup db (group s) with
    | Some g => if String.eqb (name g) EmptyString then "Unknown Group" else name g
    | None => "Unknown Group"
    end in
  let hostFirst := match users db !! host s with Some h => firstName h | None => EmptyString end in
  let hostLast := match users db !! host s with Some h => lastName h | None => EmptyString end in
  {| sc_id := sid s;
     sc_title := title s;
     sc_groupName := groupName;
     sc_time := scheduledStart s;
     sc_host := trim (hostFirst +:+ " " +:+ hostLast) |}.

(** *** The handler *)

(** The reply (lines 262-274); [stats] carries the user's four counters,
    the streak under the key [currentStreak]. *)
Record DashboardData : Type := mkDashboard {
  recentGroups : list GroupCard;
  upcomingSessions : list SessionCard;
  stats : StudyStats;
  todayProgress : Z;
  weekProgress : Z;
  weeklyGoal : Z
}.

(** The windows of the two progress queries (lines 211-214, 228-231). *)
Definition todayStart (off now : Z) : Z := setHours0 off now.
Definition tomorrowStart (off now : Z) : Z := addDays (todayStart off now) 1.
Definition weekStart (off now : Z) : Z :=
  addDays (todayStart off now) (- getDay off (todayStart off now)).
Definition weekEnd (off now : Z) : Z := addDays (weekStart off now) 7.

(** [router.get('/dashboard', ...)] for the authenticated user [uid] at
    time [now], in the time zone [off]. *)
Definition get_dashboard (db : Store) (uid : string) (now off : Z)
  : reply DashboardData :=
  let user := users db !! uid in
  let recent := findRecentGroups db uid in
  let upcoming := findUpcomingSessions db uid now in
  let todaysSessions :=
    findCompleted db uid (todayStart off now) (tomorrowStart off now) in
  let todayProgress := progress uid todaysSessions in
  let weekSessions :=
    findCompleted db uid (weekStart off now) (weekEnd off now) in
  let weekProgress := progress uid weekSessions in
  match user with
  | None => ServerError              (* reading [user.studyStats] of null throws *)
  | Some user =>
    Ok {| recentGroups := map formatGroup recent;
          upcomingSessions := map (formatSession db) upcoming;
          stats := {| totalStudyTime := totalStudyTime (studyStats user);
                      sessionsCompleted := sessionsCompleted (studyStats user);
                      streak := streak (studyStats user);
                      achievements := achievements (studyStats user) |};
          todayProgress := todayProgress;
          weekProgress := weekProgress;
          weeklyGoal := 300 |}
  end.

End Dashboard.

(** ** The specification's vocabulary *)

Module Spec.
Import JS Validator JSDate Dashboard.

(** The local calendar day of a timestamp, as a day number. *)
Definition calendarDay (off t : Z) : Z := (t + off) / msPerDay.

(** The number of calendar days from [last] to [today]. *)
Definition calendarGap (off last today : Z) : Z :=
  calendarDay off today - calendarDay off last.

(** The local time of day of a timestamp, in milliseconds. *)
Definition timeOfDay (off t : Z) : Z := (t + off) mod msPerDay.

(** The three ways a duration is invalid.  A value is numeric when it is a
    number or a string that reads as an integer. *)
Definition missing (v : jsval) : bool :=
  match v with JUndefined => true | _ => false end.

Definition nonNumeric (v : jsval) : bool :=
  match v with
  | JNull | JBool _ | JArr _ | JObj => true
  | JStr s => match intOfString s with None => true | Some _ => false end
  | _ => false
  end.

Definition lessThanOne (v : jsval) : bool :=
  match v with
  | JInt z => z <? 1
  | JNonInt floor => floor <? 1
  | JStr s => match intOfString s with Some z => z <? 1 | None => false end
  | _ => false
  end.

(** [findParticipation(session, userId) -> optional<duration>]: the
    duration recorded for the user in the session, when there is one. *)
Definition findParticipation (session : Session) (userId : string) : option Z :=
  match find (fun p => String.eqb (p_user p) userId) (participants session) with
  | Some p => p_duration p
  | None => None
  end.

(** The sum of the user's durations over a list of sessions, a session
    without a matching entry counting for 0. *)
Fixpoint sumOfDurations (userId : string) (l : list Session) : Z :=
  match l with
  | [] => 0
  | s :: l' =>
    match findParticipation s userId with Some d => d | None => 0 end
    + sumOfDurations userId l'
  end.

(** Whether the post-update statistics reach the threshold of an
    achievement: 60 minutes for [first-hour], a streak of 7 for
    [week-streak], 10 sessions for [session-master]. *)
Definition thresholdReached (id : string) (st : StudyStats) : bool :=
  if String.eqb id "first-hour" then 60 <=? totalStudyTime st
  else if String.eqb id "week-streak" then 7 <=? streak st
  else if String.eqb id "session-master" then 10 <=? sessionsCompleted st
  else false.

(** The achievements in the order in which they are checked. *)
Definition checkOrder : list string :=
  ["first-hour"; "week-streak"; "session-master"].

(** An integer that a number holds exactly, together with its
    neighbours: at most 2^53 in absolute value. *)
Definition safeInteger (z : Z) : Prop := Z.abs z <= 2 ^ 53.

(** [k] is the floor of [elapsed / 1 day]. *)
Definition floorDays (elapsed k : Z) : Prop :=
  k * msPerDay <= elapsed < (k + 1) * msPerDay.

(** The streak rule read on calendar days, in the time zone [off]: the gap
    between the calendar days of [lastStudyDate] and [today] decides. *)
Definition streakFollowsCalendar (off : Z) : Prop :=
  forall (user : User) (last today d : Z),
    lastStudyDate user = Some last ->
    let before := streak (studyStats user) in
    let after := streak (studyStats (StudyTime.userAfter user d today)) in
    (calendarGap off last today = 1 -> after = before + 1) /\
    (calendarGap off last today > 1 -> after = 1) /\
    (calendarGap off last today = 0 -> after = before).


(** The user after a sequence of calls, each a duration and a time. *)
Definition afterCalls (user : User) (calls : list (Z * Z)) : User :=
  fold_left (fun u c => StudyTime.userAfter u (fst c) (snd c)) calls user.

End Spec.

(** ** Sample data *)

Module Examples.
Import Dashboard.

Definition hour : Z := 3600000.

(** 2023-11-14T22:13:20Z, a Tuesday. *)
Definition t0 : Z := 1700000000000.

Definition ann : User :=
  {| firstName := "Ann"; lastName := "Lee";
     studyStats := {| totalStudyTime := 55; sessionsCompleted := 9;
                      streak := 6; achievements := [] |};
     lastStudyDate := Some (t0 - JSDate.msPerDay) |}.

Definition oneUser : gmap string User := {[ "u1" := ann ]}.

(** A user who studied at 23:00 UTC on the first day of 1970. *)
Definition lateBird : User :=
  {| firstName := "Bo"; lastName := "Ray";
     studyStats := {| totalStudyTime := 55; sessionsCompleted := 9;
                      streak := 6; achievements := [] |};
     lastStudyDate := Some (23 * hour) |}.


(** A store in which the user [u1] has no group and no session: the group
    and the sessions are another user's. *)
Definition quietStore : Store :=
  {| users := oneUser;
     groups := [ {| gid := "g1"; name := "Algebra"; subject := "Math";
                    memberCount := Some 1; updatedAt := t0 - hour;
                    members := ["u9"]; isActive := true |} ];
     sessions := [ {| sid := "s0"; title := "Rings"; group := Some "g1";
                      host := "u9";
                      participants := [ {| p_user := "u9"; p_duration := Some 45 |} ];
                      scheduledStart := t0 - 3 * hour;
                      actualEnd := Some (t0 - 2 * hour);
                      status := "completed" |} ] |}.

(** Midnight UTC of the day of [t0]. *)
Definition midnight : Z := 1699920000000.

Definition session (id : string) (minutes ended : Z) : Session :=
  {| sid := id; title := "Review"; group := None; host := "u9";
     participants := [ {| p_user := "u9"; p_duration := Some 60 |};
                       {| p_user := "u1"; p_duration := Some minutes |} ];
     scheduledStart := ended - hour;
     actualEnd := Some ended;
     status := "completed" |}.

(** Two sessions of [u1] today, of 20 and 15 minutes, and one of 30 minutes
    yesterday. *)
Definition busyStore : Store :=
  {| users := oneUser;
     groups := [];
     sessions := [ session "s1" 20 (midnight + hour);
                   session "s2" 15 (midnight + 2 * hour);
                   session "s3" 30 (midnight - hour) ] |}.

End Examples.

(** ** Further handlers and callers *)

Module Profile.
Import JS.

(** [PUT /profile], line 44: the keys a profile update may set. *)
Definition allowedUpdates : list string :=
  ["firstName"; "lastName"; "bio"; "avatar"; "studyPreferences"].

(** Lines 45-51: [Object.keys(updates).forEach(...)], which copies to
    [filteredUpdates] the entries of the body whose key is allowed.  The
    body is an object used as a map from keys to values. *)
Definition filterUpdates {V : Type} (updates : gmap string V) : gmap string V :=
  map_fold
    (fun key value filteredUpdates =>
       if includes allowedUpdates key
       then <[key := value]> filteredUpdates
       else filteredUpdates)
    ∅ updates.

End Profile.

Module Stats.
Import Dashboard.

(** [GET /stats], lines 72-75:
    [Group.countDocuments({ 'members.user': id, isActive: true })]. *)
Definition totalGroups (db : Store) (uid : string) : nat :=
  length (List.filter (fun g => existsb (String.eqb uid) (members g) && isActive g)
            (groups db)).

End Stats.

Module DashboardPage.
Import JS.


End DashboardPage.

(** ** Sequences of requests and days of the week *)

Module Runs.
Import JS JSDate Dashboard.

(** The store after a sequence of study-time requests of one user, each a
    numeric duration and the time of the request. *)
Definition postAll (users : gmap string User) (uid : string)
    (calls : list (Z * Z)) : gmap string User :=
  fold_left (fun us c => snd (StudyTime.post_study_time us uid (JInt (fst c)) (snd c)))
    calls users.

(** Each request comes at least [lo] and less than [hi] milliseconds after
    the one before it, the first one after [last]. *)
Fixpoint spaced (lo hi last : Z) (calls : list (Z * Z)) : Prop :=
  match calls with
  | [] => True
  | c :: rest => last + lo <= snd c < last + hi /\ spaced lo hi (snd c) rest
  end.

(** The sum of the durations of a sequence of requests. *)
Definition totalDuration (calls : list (Z * Z)) : Z :=
  fold_right (fun c acc => fst c + acc) 0 calls.


(** The last byte of a string. *)
Fixpoint lastChar (s : string) : option ascii :=
  match s with
  | EmptyString => None
  | String c EmptyString => Some c
  | String _ r => lastChar r
  end.

(** The string ends with a white space character: it is some string
    followed by the bytes of one white space character. *)
Definition endsWithWhite (s : string) : Prop :=
  exists p w, s = p +:+ w /\ w <> EmptyString /\ whiteLen w = String.length w.

(** A byte of a word: an ASCII character that is not white space. *)
Definition plainChar (c : ascii) : bool :=
  negb (asciiSpace c) && Nat.ltb (nat_of_ascii c) 128.

(** A word: ASCII characters, none of them white space. *)
Fixpoint plainWord (s : string) : bool :=
  match s with
  | EmptyString => true
  | String c r => plainChar c && plainWord r
  end.

End Runs.

(** ** More sample data *)

Module Samples.
Import Dashboard.

Definition club (id : string) (updated : Z) (active : bool) : Group :=
  {| gid := id; name := "Group " +:+ id; subject := "Math";
     memberCount := None; updatedAt := updated;
     members := ["u9"; "u1"]; isActive := active |}.

Definition upcoming (id : string) (start : Z) (st : string) : Session :=
  {| sid := id; title := "Plan"; group := Some "g9"; host := "u1";
     participants := []; scheduledStart := start; actualEnd := None;
     status := st |}.

(** Seven groups of [u1], one of them inactive, and four sessions hosted by
    [u1], one in the past and one cancelled. *)
Definition clubStore : Store :=
  {| users := Examples.oneUser;
     groups := [ club "a" 30 true; club "b" 70 true; club "c" 10 true;
                 club "d" 50 false; club "e" 60 true; club "f" 20 true;
                 club "g" 40 true ];
     sessions := [ upcoming "p" (Examples.t0 + 5) "scheduled";
                   upcoming "q" (Examples.t0 - 5) "scheduled";
                   upcoming "r" (Examples.t0 + 1) "active";
                   upcoming "s" (Examples.t0 + 3) "cancelled" ] |}.

(** A session in which [u1] is entered twice. *)
Definition twice : Session :=
  {| sid := "s7"; title := "Review"; group := None; host := "u9";
     participants := [ {| p_user := "u9"; p_duration := Some 60 |};
                       {| p_user := "u1"; p_duration := None |};
                       {| p_user := "u1"; p_duration := Some 25 |} ];
     scheduledStart := Examples.midnight;
     actualEnd := Some (Examples.midnight + Examples.hour);
     status := "completed" |}.

(** A body that tries to set protected fields. *)
Definition greedyBody : gmap string JS.jsval :=
  {[ "firstName" := JS.JStr "Ann"; "studyStats" := JS.JInt 9000;
     "password" := JS.JStr "secret"; "bio" := JS.JStr "hello" ]}.

End Samples.

(** * Properties *)

Import JS Validator JSDate StudyTime.

(** ** Numerals *)

Lemma digits_string_of_uint (p : positive) :
  digits (NilEmpty.string_of_uint (Pos.to_uint p)) = Some (Z.pos p).
Proof.
  unfold digits.
  rewrite NilEmpty.usu. simpl.
  assert (Z.of_uint (Pos.to_uint p) = Z.pos p) as ->.
  { unfold Z.of_uint. now rewrite DecimalPos.Unsigned.of_to. }
  destruct (NilEmpty.string_of_uint (Pos.to_uint p)) eqn:E; [|reflexivity].
  exfalso. apply (DecimalPos.Unsigned.to_uint_nonnil p).
  now destruct (Pos.to_uint p).
Qed.

Lemma string_of_uint_head (d : Decimal.uint) c r :
  NilEmpty.string_of_uint d = String c r -> c <> "+"%char /\ c <> "-"%char.
Proof.
  destruct d; simpl; intros H; inversion H; split; discriminate.
Qed.

(** Reading back the numeral of an integer gives the integer. *)
Lemma intOfString_string_of_Z (z : Z) : intOfString (string_of_Z z) = Some z.
Proof.
  unfold string_of_Z. destruct z as [|p|p]; simpl.
  - reflexivity.
  - pose proof (digits_string_of_uint p) as Hd.
    destruct (NilEmpty.string_of_uint (Pos.to_uint p)) as [|c r] eqn:E.
    + discriminate Hd.
    + destruct (string_of_uint_head _ _ _ E) as [Hp Hm].
      unfold intOfString.
      destruct c as [[] [] [] [] [] [] [] []]; try exact Hd;
        exfalso; (now apply Hp) || (now apply Hm).
  - now rewrite digits_string_of_uint.
Qed.

Lemma validDuration_JInt (z : Z) :
  validDuration (JInt z) = (1 <=? z) && (z <? 10 ^ 21).
Proof.
  unfold validDuration, isInt, toString, toStringShallow, jsString, numberString.
  destruct (Z.ltb_spec (Z.abs z) (10 ^ 21)).
  - rewrite intOfString_string_of_Z.
    destruct (Z.leb_spec 1 z), (Z.ltb_spec z (10 ^ 21)); try reflexivity; lia.
  - cbn [intOfString digits NilEmpty.uint_of_string uint_of_char option_map].
    destruct (Z.leb_spec 1 z), (Z.ltb_spec z (10 ^ 21)); try reflexivity; lia.
Qed.

Lemma toDouble_safe (n : Z) : Spec.safeInteger n -> toDouble n = n.
Proof.
  unfold Spec.safeInteger, toDouble. intros H.
  now destruct (Z.leb_spec (Z.abs n) (2 ^ 53)); [|lia].
Qed.

Lemma safe_below_exponent (z : Z) : Spec.safeInteger z -> Z.abs z < 10 ^ 21.
Proof. unfold Spec.safeInteger. intros H. eapply Z.le_lt_trans; [exact H|]. reflexivity. Qed.

(** ** The study-time handler on a numeric duration *)

Lemma recordStudyTime_JInt (user : User) (d today : Z) :
  recordStudyTime user (JInt d) today =
  Some (userAfter user d today, unlockedBy user d today).
Proof. reflexivity. Qed.

Lemma post_study_time_JInt (users : gmap string User) uid user d now :
  users !! uid = Some user -> validDuration (JInt d) = true ->
  post_study_time users uid (JInt d) now =
  (Ok {| stats := studyStats (userAfter user d now);
         newAchievements := unlockedBy user d now |},
   <[uid := userAfter user d now]> users).
Proof.
  intros Hu Hd. unfold post_study_time. rewrite Hd. cbn [negb].
  rewrite Hu. reflexivity.
Qed.

(** A number that holds an integer from 1 to below 10^21 passes the
    validator. *)
Lemma validDuration_below (d : Z) :
  1 <= d -> d < 10 ^ 21 -> validDuration (JInt d) = true.
Proof.
  intros H1 H2. rewrite validDuration_JInt.
  apply andb_true_iff. now rewrite Z.leb_le, Z.ltb_lt.
Qed.

(** A number that holds an integer from 1 to 2^53 passes the validator. *)
Lemma validDuration_safe (d : Z) :
  1 <= d -> Spec.safeInteger d -> validDuration (JInt d) = true.
Proof.
  intros H1 Hs. rewrite validDuration_JInt. apply safe_below_exponent in Hs.
  apply andb_true_iff. rewrite Z.leb_le, Z.ltb_lt. lia.
Qed.

Lemma diffDays_floor (last : option Z) (today k : Z) :
  Spec.floorDays (today - match last with Some d => d | None => 0 end) k <->
  diffDays last today = k.
Proof.
  unfold Spec.floorDays, diffDays, msPerDay. split.
  - intros H. symmetry. apply (Z.div_unique_pos _ _ k (today - match last with Some d => d | None => 0 end - k * 86400000)); lia.
  - intros <-.
    pose proof (Z.div_mod (today - match last with Some d => d | None => 0 end) (1000 * 60 * 60 * 24) ltac:(lia)).
    pose proof (Z.mod_pos_bound (today - match last with Some d => d | None => 0 end) (1000 * 60 * 60 * 24) ltac:(lia)).
    lia.
Qed.

Lemma streak_after (user : User) (d today : Z) :
  streak (studyStats (userAfter user d today)) =
  updateStreak (streak (studyStats user)) (diffDays (lastStudyDate user) today).
Proof. reflexivity. Qed.


(** C1, the counterexample.  Numbers are doubles: with 55 minutes stored a
    duration of 2^53 passes the validator and the stored total is
    9007199254741048, one more than 55 + 2^53; and a duration of 10^21,
    whose string is in exponent form, is answered with 400. *)
Lemma study_time_adds_counterexample :
  validDuration (JInt (2 ^ 53)) = true /\
  totalStudyTime (studyStats Examples.ann) = 55 /\
  option_map (fun u => totalStudyTime (studyStats u))
    (snd (post_study_time Examples.oneUser "u1" (JInt (2 ^ 53)) Examples.t0) !! "u1")
    = Some 9007199254741048 /\
  55 + 2 ^ 53 = 9007199254741047 /\
  post_study_time Examples.oneUser "u1" (JInt (10 ^ 21)) Examples.t0
    = (BadRequest, Examples.oneUser).
Proof. repeat split; vm_compute; reflexivity. Qed.

(** C1, amended.  A request of the stored user [uid] with a duration
    [d >= 1] is answered with 200 and stores a user whose [totalStudyTime]
    is the old one plus [d] and whose [sessionsCompleted] is the old one
    plus 1, whatever the streak, the dates and the achievements are, when
    [d] and the two sums are integers that a number holds exactly (at most
    2^53 in absolute value). *)
Theorem study_time_adds_duration (users : gmap string User) uid user d now :
  users !! uid = Some user -> 1 <= d ->
  Spec.safeInteger d ->
  Spec.safeInteger (totalStudyTime (studyStats user) + d) ->
  Spec.safeInteger (sessionsCompleted (studyStats user) + 1) ->
  exists user' new,
    post_study_time users uid (JInt d) now =
      (Ok {| stats := studyStats user'; newAchievements := new |},
       <[uid := user']> users) /\
    totalStudyTime (studyStats user') = totalStudyTime (studyStats user) + d /\
    sessionsCompleted (studyStats user') = sessionsCompleted (studyStats user) + 1.
Proof.
  intros Hu Hd Hsd Hst Hss.
  exists (userAfter user d now), (unlockedBy user d now).
  split; [apply post_study_time_JInt; [exact Hu | now apply validDuration_safe]|].
  cbn [userAfter recordStudyTime plusAssign studyStats totalStudyTime sessionsCompleted].
  unfold jsAdd. now rewrite !toDouble_safe.
Qed.

Lemma study_time_adds_duration_witness :
  exists user' new,
    post_study_time Examples.oneUser "u1" (JInt 10) Examples.t0 =
      (Ok {| stats := studyStats user'; newAchievements := new |},
       <["u1" := user']> Examples.oneUser) /\
    totalStudyTime (studyStats user') = 55 + 10 /\
    sessionsCompleted (studyStats user') = 9 + 1.
Proof.
  apply (study_time_adds_duration Examples.oneUser "u1" Examples.ann 10 Examples.t0).
  - reflexivity.
  - lia.
  - unfold Spec.safeInteger. cbn. lia.
  - unfold Spec.safeInteger. cbn. lia.
  - unfold Spec.safeInteger. cbn. lia.
Defined.

(** A duration sent as a string of digits passes the validator as well;
    [+=] then concatenates it to the numeral of the total, so 55 minutes
    and ["10"] make 5510. *)
Lemma study_time_numeric_string :
  validDuration (JStr "10") = true /\
  option_map (fun r => totalStudyTime (studyStats (fst r)))
    (recordStudyTime Examples.ann (JStr "10") Examples.t0) = Some 5510.
Proof. split; reflexivity. Qed.



(** ** Elapsed days and calendar days *)



(** The calendar reading of the streak rule holds in no time zone. *)
Lemma streak_calendar_rule_fails : ~ exists off, Spec.streakFollowsCalendar off.
Proof.
  intros [off H].
  pose (user := {| firstName := "Bo"; lastName := "Ray";
                   studyStats := {| totalStudyTime := 0; sessionsCompleted := 0;
                                    streak := 6; achievements := [] |};
                   lastStudyDate := Some (23 * Examples.hour - off) |}).
  destruct (H user (23 * Examples.hour - off)
              (msPerDay + Examples.hour - off) 10 eq_refl) as (H1 & _ & _).
  assert (Spec.calendarGap off (23 * Examples.hour - off)
            (msPerDay + Examples.hour - off) = 1) as Hg.
  { unfold Spec.calendarGap, Spec.calendarDay.
    replace (msPerDay + Examples.hour - off + off) with (msPerDay + Examples.hour) by lia.
    replace (23 * Examples.hour - off + off) with (23 * Examples.hour) by lia.
    reflexivity. }
  specialize (H1 Hg). rewrite streak_after in H1.
  cbn [user lastStudyDate studyStats streak] in H1. unfold diffDays in H1.
  replace (msPerDay + Examples.hour - off - (23 * Examples.hour - off))
    with (msPerDay - 22 * Examples.hour) in H1 by lia.
  discriminate H1.
Qed.



(** ** Achievements *)

Lemma includes_spec (l : list string) (x : string) :
  includes l x = true <-> x ∈ l.
Proof.
  unfold includes. rewrite existsb_exists, list_elem_of_In. split.
  - intros (y & Hy & E). apply String.eqb_eq in E. now subst.
  - intros H. exists x. split; [assumption | apply String.eqb_refl].
Qed.

Lemma includes_false (l : list string) (x : string) :
  includes l x = false <-> x ∉ l.
Proof.
  rewrite <- includes_spec. destruct (includes l x); split; congruence.
Qed.

(** The three sequential checks select, in the order of the checks, the
    achievements whose threshold is reached and which the user lacks. *)
Lemma checkAchievements_filter (total streak0 sessions : Z) (have : list string) :
  checkAchievements total streak0 sessions have =
  List.filter
    (fun id => Spec.thresholdReached id
                 {| totalStudyTime := total; sessionsCompleted := sessions;
                    streak := streak0; achievements := have |}
               && negb (includes have id))
    Spec.checkOrder.
Proof.
  unfold checkAchievements, Spec.checkOrder, Spec.thresholdReached. cbn.
  destruct (60 <=? total), (7 <=? streak0), (10 <=? sessions),
    (includes have "first-hour"), (includes have "week-streak"),
    (includes have "session-master"); reflexivity.
Qed.

Lemma thresholdReached_achievements (id : string) (st : StudyStats) (l : list string) :
  Spec.thresholdReached id
    {| totalStudyTime := totalStudyTime st; sessionsCompleted := sessionsCompleted st;
       streak := streak st; achievements := l |}
  = Spec.thresholdReached id st.
Proof. reflexivity. Qed.

Lemma unlockedBy_filter (user : User) (d today : Z) :
  unlockedBy user d today =
  List.filter
    (fun id => Spec.thresholdReached id (studyStats (userAfter user d today))
               && negb (includes (achievements (studyStats user)) id))
    Spec.checkOrder.
Proof.
  unfold unlockedBy, userAfter, recordStudyTime. cbn [plusAssign].
  now rewrite checkAchievements_filter.
Qed.

Lemma achievements_after (user : User) (d today : Z) :
  achievements (studyStats (userAfter user d today)) =
  achievements (studyStats user) ++ unlockedBy user d today.
Proof. reflexivity. Qed.

Lemma elem_of_unlockedBy (user : User) (d today : Z) (id : string) :
  id ∈ unlockedBy user d today <->
  id ∈ Spec.checkOrder /\
  Spec.thresholdReached id (studyStats (userAfter user d today)) = true /\
  id ∉ achievements (studyStats user).
Proof.
  rewrite unlockedBy_filter, list_elem_of_In, filter_In, <- list_elem_of_In.
  rewrite andb_true_iff, negb_true_iff, includes_false. tauto.
Qed.

Lemma NoDup_unlockedBy (user : User) (d today : Z) :
  NoDup (unlockedBy user d today).
Proof.
  rewrite unlockedBy_filter. apply NoDup_ListNoDup, List.NoDup_filter.
  unfold Spec.checkOrder.
  repeat (constructor; [simpl; intuition discriminate|]). constructor.
Qed.

Lemma achievements_kept (user : User) (calls : list (Z * Z)) (id : string) :
  id ∈ achievements (studyStats user) ->
  id ∈ achievements (studyStats (Spec.afterCalls user calls)).
Proof.
  revert user. induction calls as [|[d t] calls IH]; intros user H; [exact H|].
  apply IH. cbn [fst snd]. rewrite achievements_after. set_solver.
Qed.

(** C4.  The scenario: from 55 minutes, 9 sessions and a streak of 6, with
    the last session exactly one day before [today] and no achievement, a
    call with 10 minutes gives 65, 10 and 7 and unlocks [first-hour],
    [week-streak], [session-master] in this order.  In general the unlocked
    list is the list of the three identifiers in the order of the checks,
    restricted to those whose threshold the updated statistics reach and
    which were not among the user's achievements. *)
Theorem scenario_unlocks_three (fn ln : string) (today : Z) (user : User) (d today' : Z) :
  recordStudyTime
    {| firstName := fn; lastName := ln;
       studyStats := {| totalStudyTime := 55; sessionsCompleted := 9;
                        streak := 6; achievements := [] |};
       lastStudyDate := Some (today - msPerDay) |}
    (JInt 10) today
  = Some ({| firstName := fn; lastName := ln;
             studyStats := {| totalStudyTime := 65; sessionsCompleted := 10;
                              streak := 7;
                              achievements :=
                                ["first-hour"; "week-streak"; "session-master"] |};
             lastStudyDate := Some today |},
          ["first-hour"; "week-streak"; "session-master"])
  /\
  unlockedBy user d today' =
  List.filter
    (fun id => Spec.thresholdReached id (studyStats (userAfter user d today'))
               && negb (includes (achievements (studyStats user)) id))
    ["first-hour"; "week-streak"; "session-master"].
Proof.
  split; [|apply unlockedBy_filter].
  unfold recordStudyTime. cbn [plusAssign studyStats totalStudyTime lastStudyDate
    sessionsCompleted streak achievements firstName lastName].
  assert (diffDays (Some (today - msPerDay)) today = 1) as ->.
  { unfold diffDays. replace (today - (today - msPerDay)) with msPerDay by lia.
    reflexivity. }
  reflexivity.
Qed.

(** C5.  An identifier the user already has is not unlocked again and
    occurs in the stored achievements as often as before; achievements
    without duplicates stay without duplicates; an identifier is unlocked
    only by a call whose updated statistics reach its threshold while the
    user lacks it, and no later call, after any number of calls in between,
    unlocks it again. *)
Theorem achievements_idempotent (user : User) (d today : Z) (id : string)
    (calls : list (Z * Z)) (d' today' : Z) :
  (id ∈ achievements (studyStats user) ->
   (id ∉ unlockedBy user d today) /\
   count_occ string_dec (achievements (studyStats (userAfter user d today))) id =
   count_occ string_dec (achievements (studyStats user)) id) /\
  (NoDup (achievements (studyStats user)) ->
   NoDup (achievements (studyStats (userAfter user d today)))) /\
  (id ∈ unlockedBy user d today ->
   Spec.thresholdReached id (studyStats (userAfter user d today)) = true /\
   (id ∉ achievements (studyStats user)) /\
   (id ∉ unlockedBy (Spec.afterCalls (userAfter user d today) calls) d' today')).
Proof.
  split; [|split].
  - intros Hin.
    assert (id ∉ unlockedBy user d today) as Hnot.
    { rewrite elem_of_unlockedBy. tauto. }
    split; [exact Hnot|].
    rewrite achievements_after, count_occ_app.
    rewrite list_elem_of_In in Hnot.
    apply (count_occ_not_In string_dec) in Hnot. rewrite Hnot. lia.
  - intros Hnd. rewrite achievements_after. apply NoDup_app.
    split; [exact Hnd|]. split; [|apply NoDup_unlockedBy].
    intros x Hx. rewrite elem_of_unlockedBy. tauto.
  - intros Hin. pose proof Hin as Hin'.
    apply elem_of_unlockedBy in Hin' as (_ & Hth & Hnew).
    split; [exact Hth|]. split; [exact Hnew|].
    rewrite elem_of_unlockedBy. intros (_ & _ & Hno). apply Hno.
    apply achievements_kept. rewrite achievements_after. set_solver.
Qed.

(** ** Rejected requests *)

(** What passes the validator: an integer from 1 to below 10^21 as a
    number, a string that reads as an integer of at least 1, or an array
    whose elements all pass. *)
Lemma validDuration_inv (v : jsval) :
  validDuration v = true ->
  (exists z, 1 <= z /\
     (v = JInt z /\ z < 10 ^ 21 \/ exists s, v = JStr s /\ intOfString s = Some z)) \/
  (exists l, v = JArr l /\ forallb (fun value => isInt 1 (toString value)) l = true).
Proof.
  destruct v as [| |[]|z|f|s|l|]; try discriminate.
  - rewrite validDuration_JInt. intros H. apply andb_true_iff in H as [H1 H2].
    apply Z.leb_le in H1. apply Z.ltb_lt in H2. left. exists z. split; [exact H1|]. now left.
  - unfold validDuration, isInt, toString, toStringShallow, jsString.
    destruct (intOfString s) as [z|] eqn:E; [|discriminate].
    intros H. left. exists z. split; [lia|]. right. now exists s.
  - intros H. right. now exists l.
Qed.

(** A value other than an array that is missing, not numeric or less than
    1 does not pass the validator. *)
Lemma invalid_not_valid (v : jsval) :
  (forall l, v <> JArr l) ->
  Spec.missing v || Spec.nonNumeric v || Spec.lessThanOne v = true ->
  validDuration v = false.
Proof.
  intros Harr. destruct v as [| |[]|z|f|s|l|]; try reflexivity.
  - rewrite validDuration_JInt. cbn [Spec.missing Spec.nonNumeric Spec.lessThanOne orb].
    intros H. apply Z.ltb_lt in H. destruct (Z.leb_spec 1 z); [lia|reflexivity].
  - unfold validDuration, isInt, toString, toStringShallow, jsString.
    cbn [Spec.missing Spec.nonNumeric Spec.lessThanOne orb].
    destruct (intOfString s) as [z|]; [|reflexivity]. intros H. lia.
  - now destruct (Harr l).
Qed.

(** A request whose duration is not an array and is missing, not numeric
    or less than 1 is answered with 400 and leaves the store as it was. *)
Lemma invalid_duration_rejected (users : gmap string User) uid (v : jsval) now :
  (forall l, v <> JArr l) ->
  Spec.missing v || Spec.nonNumeric v || Spec.lessThanOne v = true ->
  post_study_time users uid v now = (BadRequest, users).
Proof.
  intros Ha H. unfold post_study_time. now rewrite (invalid_not_valid v Ha H).
Qed.

(** C6, what the code does.  A duration that is the empty array is present
    and not numeric, yet it passes the validator, which checks an array
    element by element: the request is answered with 200, and of the stored
    statistics [sessionsCompleted], [streak], [achievements] and
    [lastStudyDate] change (the total stays, [55 + []] being the string
    ["55"]). *)
Theorem empty_array_duration_accepted :
  Spec.nonNumeric (JArr []) = true /\
  validDuration (JArr []) = true /\
  post_study_time Examples.oneUser "u1" (JArr []) Examples.t0 =
    (Ok (mkBody
           {| totalStudyTime := 55; sessionsCompleted := 10; streak := 7;
              achievements := ["week-streak"; "session-master"] |}
           ["week-streak"; "session-master"]),
     <["u1" := {| firstName := "Ann"; lastName := "Lee";
                  studyStats :=
                    {| totalStudyTime := 55; sessionsCompleted := 10; streak := 7;
                       achievements := ["week-streak"; "session-master"] |};
                  lastStudyDate := Some Examples.t0 |}]> Examples.oneUser).
Proof. repeat split. Qed.

(** C7, what the code does.  For a user that is not in the store a valid
    request is answered with 500, not with 404, and the store is unchanged;
    the profile handler answers 404 for the same identifier. *)
Theorem missing_user_server_error (users : gmap string User) uid (v : jsval) now :
  users !! uid = None -> validDuration v = true ->
  post_study_time users uid v now = (ServerError, users) /\
  get_profile users uid = NotFound.
Proof.
  intros Hu Hv. unfold post_study_time, get_profile. now rewrite Hv, Hu.
Qed.

Lemma missing_user_server_error_witness :
  post_study_time Examples.oneUser "u2" (JInt 30) Examples.t0 =
    (ServerError, Examples.oneUser) /\
  get_profile Examples.oneUser "u2" = NotFound.
Proof.
  apply (missing_user_server_error Examples.oneUser "u2" (JInt 30) Examples.t0);
    reflexivity.
Defined.

(** ** The dashboard *)

Import Dashboard.

Lemma userDuration_findParticipation (uid : string) (s : Session) :
  userDuration uid s =
  match Spec.findParticipation s uid with Some d => d | None => 0 end.
Proof.
  unfold userDuration, Spec.findParticipation.
  now destruct (find _ (participants s)).
Qed.

Lemma progress_from (uid : string) (l : list Session) (a : Z) :
  fold_left (fun total session => total + userDuration uid session) l a =
  a + Spec.sumOfDurations uid l.
Proof.
  revert a. induction l as [|s l IH]; intros a; simpl.
  - lia.
  - rewrite IH, userDuration_findParticipation. lia.
Qed.

(** The [reduce] computes the sum of the user's durations. *)
Lemma progress_sum (uid : string) (l : list Session) :
  progress uid l = Spec.sumOfDurations uid l.
Proof. unfold progress. now rewrite progress_from. Qed.

Lemma get_dashboard_found (db : Store) uid now off user :
  users db !! uid = Some user ->
  get_dashboard db uid now off =
  Ok {| recentGroups := map formatGroup (findRecentGroups db uid);
        upcomingSessions := map (formatSession db) (findUpcomingSessions db uid now);
        stats := studyStats user;
        todayProgress :=
          progress uid (findCompleted db uid (todayStart off now) (tomorrowStart off now));
        weekProgress :=
          progress uid (findCompleted db uid (weekStart off now) (weekEnd off now));
        weeklyGoal := 300 |}.
Proof.
  intros Hu. unfold get_dashboard. rewrite Hu. now destruct (studyStats user).
Qed.

(** The day of today lies in the week of today. *)
Lemma today_in_week (off now : Z) :
  weekStart off now <= todayStart off now /\
  tomorrowStart off now <= weekEnd off now /\
  weekEnd off now = weekStart off now + 7 * msPerDay.
Proof.
  unfold weekEnd, weekStart, tomorrowStart, addDays.
  pose proof (Z.mod_pos_bound ((todayStart off now + off) / msPerDay + 4) 7 ltac:(lia)) as B.
  unfold getDay. unfold msPerDay in *. lia.
Qed.

Lemma completedBetween_widen (uid : string) (from to from' to' : Z) (s : Session) :
  from' <= from -> to <= to' ->
  completedBetween uid from to s = true -> completedBetween uid from' to' s = true.
Proof.
  intros Hf Ht. unfold completedBetween.
  rewrite !andb_true_iff. intros [[Hp He] Hs]. repeat split; try assumption.
  destruct (actualEnd s) as [e|]; [|discriminate].
  revert He. rewrite !andb_true_iff, !Z.leb_le, !Z.ltb_lt. lia.
Qed.

Lemma find_duration_nonneg (uid : string) (s : Session) :
  (forall p d, p ∈ participants s -> p_duration p = Some d -> 0 <= d) ->
  0 <= match Spec.findParticipation s uid with Some d => d | None => 0 end.
Proof.
  intros H. unfold Spec.findParticipation.
  destruct (find _ (participants s)) as [p|] eqn:E; [|lia].
  destruct (p_duration p) as [d|] eqn:Ed; [|lia].
  apply find_some in E as [Hin _]. apply (H p d); [now apply list_elem_of_In | exact Ed].
Qed.

(** Over sessions with non-negative durations a wider selection sums to
    at least as much. *)
Lemma sum_filter_mono (uid : string) (P Q : Session -> bool) (l : list Session) :
  (forall s, s ∈ l -> P s = true -> Q s = true) ->
  (forall s p d, s ∈ l -> p ∈ participants s -> p_duration p = Some d -> 0 <= d) ->
  Spec.sumOfDurations uid (List.filter P l) <= Spec.sumOfDurations uid (List.filter Q l).
Proof.
  induction l as [|s l IH]; intros HPQ Hpos; simpl; [lia|].
  assert (Spec.sumOfDurations uid (List.filter P l)
          <= Spec.sumOfDurations uid (List.filter Q l)) as Hl.
  { apply IH.
    - intros s' Hs'. apply HPQ. now right.
    - intros s' p d Hs'. apply Hpos. now right. }
  assert (0 <= match Spec.findParticipation s uid with Some d => d | None => 0 end) as Hs.
  { apply find_duration_nonneg. intros p d. apply Hpos. now left. }
  destruct (P s) eqn:EP.
  - rewrite (HPQ s (list_elem_of_here _ _) EP). simpl. lia.
  - destruct (Q s); simpl; lia.
Qed.




(** C8.  When the four queries of an existing user return nothing the
    reply is a 200 with empty [recentGroups] and [upcomingSessions] and with
    0 for [todayProgress] and [weekProgress]. *)
Theorem empty_dashboard (db : Store) uid now off user :
  users db !! uid = Some user ->
  findRecentGroups db uid = [] ->
  findUpcomingSessions db uid now = [] ->
  findCompleted db uid (todayStart off now) (tomorrowStart off now) = [] ->
  findCompleted db uid (weekStart off now) (weekEnd off now) = [] ->
  get_dashboard db uid now off =
  Ok {| recentGroups := []; upcomingSessions := [];
        stats := studyStats user;
        todayProgress := 0; weekProgress := 0; weeklyGoal := 300 |}.
Proof.
  intros Hu Hg Hs Ht Hw.
  rewrite (get_dashboard_found db uid now off user Hu), Hg, Hs, Ht, Hw.
  reflexivity.
Qed.

Lemma empty_dashboard_witness :
  get_dashboard Examples.quietStore "u1" Examples.t0 0 =
  Ok {| recentGroups := []; upcomingSessions := [];
        stats := studyStats Examples.ann;
        todayProgress := 0; weekProgress := 0; weeklyGoal := 300 |}.
Proof.
  apply (empty_dashboard Examples.quietStore "u1" Examples.t0 0 Examples.ann);
    reflexivity.
Defined.



(** C10.  The window of today lies in the window of the week, which is
    seven days long; every session of the today query is a session of the
    week query; and when no recorded duration is negative the reply of an
    existing user has [todayProgress <= weekProgress]. *)
Theorem today_within_week (db : Store) uid now off user :
  users db !! uid = Some user ->
  (forall s p d, s ∈ sessions db -> p ∈ participants s ->
                 p_duration p = Some d -> 0 <= d) ->
  weekStart off now <= todayStart off now /\
  tomorrowStart off now <= weekEnd off now /\
  weekEnd off now = weekStart off now + 7 * msPerDay /\
  (forall s, s ∈ findCompleted db uid (todayStart off now) (tomorrowStart off now) ->
             s ∈ findCompleted db uid (weekStart off now) (weekEnd off now)) /\
  exists body,
    get_dashboard db uid now off = Ok body /\
    todayProgress body <= weekProgress body.
Proof.
  intros Hu Hpos.
  destruct (today_in_week off now) as (Hlo & Hhi & Hlen).
  do 3 (split; [assumption|]). split.
  - intros s. unfold findCompleted.
    rewrite !list_elem_of_In, !filter_In. intros [Hin Hc]. split; [exact Hin|].
    now apply (completedBetween_widen uid (todayStart off now) (tomorrowStart off now)).
  - eexists. split; [apply (get_dashboard_found db uid now off user Hu)|].
    cbn [todayProgress weekProgress]. rewrite !progress_sum.
    unfold findCompleted. apply sum_filter_mono; [|exact Hpos].
    intros s _.
    now apply (completedBetween_widen uid (todayStart off now) (tomorrowStart off now)).
Qed.

Lemma today_within_week_witness :
  weekStart 0 Examples.t0 <= todayStart 0 Examples.t0 /\
  tomorrowStart 0 Examples.t0 <= weekEnd 0 Examples.t0 /\
  weekEnd 0 Examples.t0 = weekStart 0 Examples.t0 + 7 * msPerDay /\
  (forall s,
      s ∈ findCompleted Examples.busyStore "u1"
            (todayStart 0 Examples.t0) (tomorrowStart 0 Examples.t0) ->
      s ∈ findCompleted Examples.busyStore "u1"
            (weekStart 0 Examples.t0) (weekEnd 0 Examples.t0)) /\
  exists body,
    get_dashboard Examples.busyStore "u1" Examples.t0 0 = Ok body /\
    todayProgress body <= weekProgress body.
Proof.
  apply (today_within_week Examples.busyStore "u1" Examples.t0 0 Examples.ann).
  - reflexivity.
  - intros s p d Hs Hp Hd.
    apply list_elem_of_In in Hs.
    destruct Hs as [<-|[<-|[<-|[]]]];
      apply list_elem_of_In in Hp;
      (destruct Hp as [<-|[<-|[]]]; injection Hd as <-; vm_compute; discriminate).
Defined.

(** * Further properties *)

(** ** The study-time handler and the rest of the store *)

Import Runs.

Lemma post_study_time_other (users : gmap string User) uid (v : jsval) now uid' :
  uid' <> uid -> snd (post_study_time users uid v now) !! uid' = users !! uid'.
Proof.
  intros Hne. unfold post_study_time.
  destruct (validDuration v); cbn [negb]; [|reflexivity].
  destruct (users !! uid) as [user|]; [|reflexivity].
  destruct (recordStudyTime user v now) as [[user' new]|]; [|reflexivity].
  cbn [snd]. now rewrite lookup_insert_ne.
Qed.

Lemma post_study_time_dom (users : gmap string User) uid (v : jsval) now :
  dom (snd (post_study_time users uid v now)) = dom users.
Proof.
  unfold post_study_time.
  destruct (validDuration v); cbn [negb]; [|reflexivity].
  destruct (users !! uid) as [user|] eqn:Hu; [|reflexivity].
  destruct (recordStudyTime user v now) as [[user' new]|]; [|reflexivity].
  cbn [snd]. apply dom_insert_lookup_L. now exists user.
Qed.

Lemma recordStudyTime_names (user user' : User) (v : jsval) today new :
  recordStudyTime user v today = Some (user', new) ->
  firstName user' = firstName user /\ lastName user' = lastName user.
Proof.
  unfold recordStudyTime. destruct (plusAssign _ v); [|discriminate].
  now intros [= <- _].
Qed.

(** X1.  The handler reads and writes the document of the caller only: the
    identifiers of the store are the same after the request, whatever the
    body, every other user's document is untouched, and the caller's names
    are kept. *)
Theorem study_time_frame (users : gmap string User) uid (v : jsval) now uid' u u' :
  dom (snd (post_study_time users uid v now)) = dom users /\
  (uid' <> uid -> snd (post_study_time users uid v now) !! uid' = users !! uid') /\
  (users !! uid = Some u ->
   snd (post_study_time users uid v now) !! uid = Some u' ->
   firstName u' = firstName u /\ lastName u' = lastName u).
Proof.
  split; [apply post_study_time_dom|]. split; [apply post_study_time_other|].
  intros Hu. unfold post_study_time.
  destruct (validDuration v); cbn [negb snd]; [|rewrite Hu; now intros [= <-]].
  rewrite Hu.
  destruct (recordStudyTime u v now) as [[user' new]|] eqn:Hr; cbn [snd];
    [|rewrite Hu; now intros [= <-]].
  rewrite lookup_insert_eq. intros [= <-]. exact (recordStudyTime_names _ _ _ _ _ Hr).
Qed.

Lemma postAll_lookup (users : gmap string User) uid user calls :
  users !! uid = Some user ->
  Forall (fun c => validDuration (JInt (fst c)) = true) calls ->
  postAll users uid calls !! uid = Some (Spec.afterCalls user calls).
Proof.
  revert users user. induction calls as [|c calls IH]; intros users user Hu Hc.
  - exact Hu.
  - apply Forall_cons in Hc as [Hc Hcs]. unfold postAll, Spec.afterCalls. cbn [fold_left].
    rewrite (post_study_time_JInt users uid user (fst c) (snd c) Hu Hc). cbn [snd].
    apply IH; [apply lookup_insert_eq | exact Hcs].
Qed.

Lemma postAll_other (users : gmap string User) uid uid' calls :
  uid' <> uid -> postAll users uid calls !! uid' = users !! uid'.
Proof.
  intros Hne. revert users. induction calls as [|c calls IH]; intros users; [reflexivity|].
  unfold postAll. cbn [fold_left].
  fold (postAll (snd (post_study_time users uid (JInt (fst c)) (snd c))) uid calls).
  rewrite IH. now apply post_study_time_other.
Qed.

Lemma afterCalls_cons (user : User) (c : Z * Z) (calls : list (Z * Z)) :
  Spec.afterCalls user (c :: calls) =
  Spec.afterCalls (userAfter user (fst c) (snd c)) calls.
Proof. reflexivity. Qed.

Lemma totalDuration_nonneg (calls : list (Z * Z)) :
  Forall (fun c => 1 <= fst c) calls -> 0 <= totalDuration calls.
Proof.
  induction 1 as [|c calls Hc _ IH]; cbn [totalDuration fold_right]; [lia|].
  fold (totalDuration calls). lia.
Qed.

Lemma afterCalls_totals (user : User) (calls : list (Z * Z)) :
  Forall (fun c => 1 <= fst c) calls ->
  0 <= totalStudyTime (studyStats user) ->
  0 <= sessionsCompleted (studyStats user) ->
  totalStudyTime (studyStats user) + totalDuration calls <= 2 ^ 53 ->
  sessionsCompleted (studyStats user) + Z.of_nat (length calls) <= 2 ^ 53 ->
  totalStudyTime (studyStats (Spec.afterCalls user calls)) =
    totalStudyTime (studyStats user) + totalDuration calls /\
  sessionsCompleted (studyStats (Spec.afterCalls user calls)) =
    sessionsCompleted (studyStats user) + Z.of_nat (length calls).
Proof.
  intros Hc. revert user. induction Hc as [|c calls Hc Hcs IH]; intros user Ht Hs Hts Hss.
  - cbn. lia.
  - rewrite afterCalls_cons.
    cbn [totalDuration fold_right length] in Hts, Hss |- *.
    fold (totalDuration calls) in Hts |- *.
    pose proof (totalDuration_nonneg calls Hcs) as Hn.
    assert (totalStudyTime (studyStats (userAfter user (fst c) (snd c))) =
            totalStudyTime (studyStats user) + fst c) as E1.
    { cbn [userAfter recordStudyTime plusAssign studyStats totalStudyTime].
      unfold jsAdd. apply toDouble_safe. unfold Spec.safeInteger. lia. }
    assert (sessionsCompleted (studyStats (userAfter user (fst c) (snd c))) =
            sessionsCompleted (studyStats user) + 1) as E2.
    { cbn [userAfter recordStudyTime plusAssign studyStats sessionsCompleted].
      unfold jsAdd. apply toDouble_safe. unfold Spec.safeInteger. lia. }
    destruct (IH (userAfter user (fst c) (snd c))) as [-> ->]; rewrite ?E1, ?E2; lia.
Qed.

(** X3.  A sequence of requests of one user with numeric durations of at
    least 1 adds up as long as the sums are integers that a number holds
    exactly: when the old total and session count are not negative and the
    final ones are at most 2^53, the stored total is the old one plus the
    sum of the durations, the session count is the old one plus the number
    of requests, and no other user's document changes. *)
Theorem study_time_accumulates (users : gmap string User) uid user calls :
  users !! uid = Some user ->
  Forall (fun c => 1 <= fst c) calls ->
  0 <= totalStudyTime (studyStats user) ->
  0 <= sessionsCompleted (studyStats user) ->
  totalStudyTime (studyStats user) + totalDuration calls <= 2 ^ 53 ->
  sessionsCompleted (studyStats user) + Z.of_nat (length calls) <= 2 ^ 53 ->
  exists user',
    postAll users uid calls !! uid = Some user' /\
    totalStudyTime (studyStats user') =
      totalStudyTime (studyStats user) + totalDuration calls /\
    sessionsCompleted (studyStats user') =
      sessionsCompleted (studyStats user) + Z.of_nat (length calls) /\
    forall uid', uid' <> uid -> postAll users uid calls !! uid' = users !! uid'.
Proof.
  intros Hu Hc Ht Hs Hts Hss. exists (Spec.afterCalls user calls).
  split.
  - apply postAll_lookup; [exact Hu|].
    assert (forall l, Forall (fun c => 1 <= fst c) l -> totalDuration l <= 2 ^ 53 ->
                      Forall (fun c => validDuration (JInt (fst c)) = true) l) as Hv.
    { induction 1 as [|c l Hc' Hl IHl]; intros Hb; constructor.
      - cbn [totalDuration fold_right] in Hb. fold (totalDuration l) in Hb.
        pose proof (totalDuration_nonneg l Hl).
        apply validDuration_safe; [exact Hc'|]. unfold Spec.safeInteger. lia.
      - apply IHl. cbn [totalDuration fold_right] in Hb. fold (totalDuration l) in Hb. lia. }
    apply Hv; [exact Hc | lia].
  - destruct (afterCalls_totals user calls Hc Ht Hs Hts Hss) as [Ht' Hs'].
    repeat split; try assumption. intros uid'. apply postAll_other.
Qed.

Lemma study_time_accumulates_witness :
  exists user',
    postAll Examples.oneUser "u1" [(10, Examples.t0); (25, Examples.t0 + 60000)] !! "u1"
      = Some user' /\
    totalStudyTime (studyStats user') = 55 + 35 /\
    sessionsCompleted (studyStats user') = 9 + 2 /\
    forall uid', uid' <> "u1" ->
      postAll Examples.oneUser "u1" [(10, Examples.t0); (25, Examples.t0 + 60000)] !! uid'
      = Examples.oneUser !! uid'.
Proof.
  apply (study_time_accumulates Examples.oneUser "u1" Examples.ann
           [(10, Examples.t0); (25, Examples.t0 + 60000)]).
  - reflexivity.
  - repeat constructor; cbn; lia.
  - cbn. lia.
  - cbn. lia.
  - cbn. lia.
  - cbn. lia.
Defined.

(** ** Streaks over several requests *)

Lemma lastStudyDate_after (user : User) (d today : Z) :
  lastStudyDate (userAfter user d today) = Some today.
Proof. reflexivity. Qed.

Lemma diffDays_spaced (last today lo hi k : Z) :
  lo = k * msPerDay -> hi = (k + 1) * msPerDay ->
  last + lo <= today < last + hi ->
  diffDays (Some last) today = k.
Proof.
  intros -> -> H. apply (diffDays_floor (Some last)). unfold Spec.floorDays. lia.
Qed.

(** X4.  Requests that follow each other by less than 24 hours never change the
    streak, however many days they span: each one moves [lastStudyDate]
    forward, so the elapsed time never reaches a day. *)
Theorem streak_stalls_under_a_day (user : User) (last : Z) (calls : list (Z * Z)) :
  lastStudyDate user = Some last ->
  spaced 0 msPerDay last calls ->
  streak (studyStats (Spec.afterCalls user calls)) = streak (studyStats user).
Proof.
  revert user last. induction calls as [|c calls IH]; intros user last Hl Hs; [reflexivity|].
  destruct Hs as [Hc Hs]. rewrite afterCalls_cons.
  rewrite (IH (userAfter user (fst c) (snd c)) (snd c) (lastStudyDate_after _ _ _) Hs).
  rewrite streak_after, Hl.
  rewrite (diffDays_spaced last (snd c) 0 msPerDay 0) by (unfold msPerDay in *; lia).
  reflexivity.
Qed.

(** Seven requests, 23 hours apart, over almost a week. *)
Lemma streak_stalls_under_a_day_witness :
  streak (studyStats
            (Spec.afterCalls Examples.lateBird
               (map (fun i => (30, 23 * Examples.hour + i * (23 * Examples.hour)))
                  [1; 2; 3; 4; 5; 6; 7]))) = 6.
Proof.
  apply (streak_stalls_under_a_day Examples.lateBird (23 * Examples.hour)
           (map (fun i => (30, 23 * Examples.hour + i * (23 * Examples.hour)))
              [1; 2; 3; 4; 5; 6; 7])).
  - reflexivity.
  - cbn; repeat split; try discriminate.
Defined.



(** ** Achievements over several requests *)

Lemma unlockedBy_checkOrder (user : User) (d today : Z) (id : string) :
  id ∈ unlockedBy user d today -> id ∈ Spec.checkOrder.
Proof. rewrite elem_of_unlockedBy. tauto. Qed.

(** X6.  Over any sequence of requests the achievements only grow at the end:
    the stored list is the old one followed by identifiers of the three
    checks, each at most once and none that the user already had, so at
    most three are ever added. *)
Theorem achievements_only_grow (user : User) (calls : list (Z * Z)) :
  exists extra,
    achievements (studyStats (Spec.afterCalls user calls)) =
      achievements (studyStats user) ++ extra /\
    NoDup extra /\
    (forall id, id ∈ extra ->
                id ∈ Spec.checkOrder /\ id ∉ achievements (studyStats user)) /\
    (length extra <= 3)%nat.
Proof.
  assert (exists extra,
    achievements (studyStats (Spec.afterCalls user calls)) =
      achievements (studyStats user) ++ extra /\
    NoDup extra /\
    (forall id, id ∈ extra ->
                id ∈ Spec.checkOrder /\ id ∉ achievements (studyStats user)))
    as (extra & He & Hnd & Hin).
  { revert user. induction calls as [|c calls IH]; intros user.
    - exists []. rewrite app_nil_r. split; [reflexivity|]. split; [constructor|].
      intros id Hid. inversion Hid.
    - rewrite afterCalls_cons.
      destruct (IH (userAfter user (fst c) (snd c))) as (extra & He & Hnd & Hin).
      rewrite achievements_after in He, Hin.
      exists (unlockedBy user (fst c) (snd c) ++ extra).
      split; [now rewrite He, app_assoc|]. split.
      + apply NoDup_app. split; [apply NoDup_unlockedBy|]. split; [|exact Hnd].
        intros id Hid Hex. apply Hin in Hex as [_ Hex]. apply Hex.
        apply elem_of_app. now right.
      + intros id Hid. apply elem_of_app in Hid as [Hid|Hid].
        * apply elem_of_unlockedBy in Hid. tauto.
        * apply Hin in Hid as [Hc Hn]. split; [exact Hc|].
          intros Hold. apply Hn. apply elem_of_app. now left. }
  exists extra. repeat split; try assumption; try (now apply Hin).
  change 3%nat with (length Spec.checkOrder).
  apply submseteq_length, NoDup_submseteq; [exact Hnd|].
  intros id Hid. now apply Hin.
Qed.

(** ** Durations sent as strings *)

Lemma decimal_app_cons (d d' : Decimal.uint) :
  Decimal.app (Decimal.D0 d) d' = Decimal.D0 (Decimal.app d d') /\
  Decimal.app (Decimal.D1 d) d' = Decimal.D1 (Decimal.app d d') /\
  Decimal.app (Decimal.D2 d) d' = Decimal.D2 (Decimal.app d d') /\
  Decimal.app (Decimal.D3 d) d' = Decimal.D3 (Decimal.app d d') /\
  Decimal.app (Decimal.D4 d) d' = Decimal.D4 (Decimal.app d d') /\
  Decimal.app (Decimal.D5 d) d' = Decimal.D5 (Decimal.app d d') /\
  Decimal.app (Decimal.D6 d) d' = Decimal.D6 (Decimal.app d d') /\
  Decimal.app (Decimal.D7 d) d' = Decimal.D7 (Decimal.app d d') /\
  Decimal.app (Decimal.D8 d) d' = Decimal.D8 (Decimal.app d d') /\
  Decimal.app (Decimal.D9 d) d' = Decimal.D9 (Decimal.app d d').
Proof.
  repeat split; apply DecimalFacts.to_list_inj;
    cbn [DecimalFacts.to_list]; rewrite !DecimalFacts.app_spec; reflexivity.
Qed.

(** Reading the concatenation of two strings of digits. *)
Lemma uint_of_string_app (s1 s2 : string) (d1 d2 : Decimal.uint) :
  NilEmpty.uint_of_string s1 = Some d1 ->
  NilEmpty.uint_of_string s2 = Some d2 ->
  NilEmpty.uint_of_string (s1 +:+ s2) = Some (Decimal.app d1 d2).
Proof.
  revert d1. induction s1 as [|c s1 IH]; intros d1 H1 H2.
  - injection H1 as <-. now rewrite DecimalFacts.app_nil_l.
  - change (NilEmpty.uint_of_string (String c s1 +:+ s2))
      with (uint_of_char c (NilEmpty.uint_of_string (s1 +:+ s2))).
    change (NilEmpty.uint_of_string (String c s1))
      with (uint_of_char c (NilEmpty.uint_of_string s1)) in H1.
    destruct (NilEmpty.uint_of_string s1) as [d|] eqn:E; [|discriminate H1].
    rewrite (IH d eq_refl H2).
    destruct (decimal_app_cons d d2) as (A0 & A1 & A2 & A3 & A4 & A5 & A6 & A7 & A8 & A9).
    apply uint_of_char_spec in H1.
    destruct H1 as [[-> ->]|[[-> ->]|[[-> ->]|[[-> ->]|[[-> ->]|[[-> ->]|[[-> ->]|[[-> ->]|[[-> ->]|[-> ->]]]]]]]]]];
      cbn [uint_of_char]; congruence.
Qed.

Lemma decimal_rev_app (d1 d2 : Decimal.uint) :
  Decimal.rev (Decimal.app d1 d2) = Decimal.revapp d2 (Decimal.rev d1).
Proof.
  apply DecimalFacts.to_list_inj.
  rewrite DecimalFacts.rev_spec, DecimalFacts.app_spec, DecimalFacts.revapp_spec,
    DecimalFacts.rev_spec.
  now rewrite List.rev_app_distr, List.rev_append_rev.
Qed.

(** The value of a concatenation of digits. *)
Lemma of_uint_app (d1 d2 : Decimal.uint) :
  Z.of_uint (Decimal.app d1 d2) =
  Z.of_uint d1 * 10 ^ Z.of_N (DecimalPos.Unsigned.usize d2) + Z.of_uint d2.
Proof.
  unfold Z.of_uint.
  rewrite !DecimalPos.Unsigned.of_uint_alt, decimal_rev_app,
    DecimalPos.Unsigned.of_lu_revapp.
  rewrite N2Z.inj_add, N2Z.inj_mul, N2Z.inj_pow. cbn [Z.of_N]. lia.
Qed.

Lemma usize_uint_of_string (s : string) (d : Decimal.uint) :
  NilEmpty.uint_of_string s = Some d ->
  Z.of_N (DecimalPos.Unsigned.usize d) = Z.of_nat (String.length s).
Proof.
  revert d. induction s as [|c s IH]; intros d H.
  - now injection H as <-.
  - change (NilEmpty.uint_of_string (String c s))
      with (uint_of_char c (NilEmpty.uint_of_string s)) in H.
    destruct (NilEmpty.uint_of_string s) as [d'|] eqn:E; [|discriminate H].
    specialize (IH d' eq_refl). apply uint_of_char_spec in H.
    cbn [String.length].
    destruct H as [[-> ->]|[[-> ->]|[[-> ->]|[[-> ->]|[[-> ->]|[[-> ->]|[[-> ->]|[[-> ->]|[[-> ->]|[-> ->]]]]]]]]]];
      cbn [DecimalPos.Unsigned.usize]; lia.
Qed.

Lemma digits_inv (s : string) (z : Z) :
  digits s = Some z ->
  s <> EmptyString /\ exists d, NilEmpty.uint_of_string s = Some d /\ Z.of_uint d = z.
Proof.
  unfold digits. destruct s as [|c s]; [discriminate|].
  destruct (NilEmpty.uint_of_string (String c s)) as [d|]; [|discriminate].
  intros [= <-]. split; [discriminate|]. now exists d.
Qed.

(** The numeral of a number that is not negative is a string of digits. *)
Lemma string_of_Z_nonneg (a : Z) :
  0 <= a ->
  exists d, string_of_Z a = NilEmpty.string_of_uint d /\ d <> Decimal.Nil /\
            Z.of_uint d = a.
Proof.
  intros Ha. unfold string_of_Z. destruct a as [|p|p]; [| |lia].
  - exists Decimal.zero. repeat split. discriminate.
  - exists (Pos.to_uint p). split; [reflexivity|].
    split; [apply DecimalPos.Unsigned.to_uint_nonnil|].
    unfold Z.of_uint. now rewrite DecimalPos.Unsigned.of_to.
Qed.

Lemma intOfString_digit_head (d : Decimal.uint) (s : string) :
  d <> Decimal.Nil ->
  intOfString (NilEmpty.string_of_uint d +:+ s) =
  digits (NilEmpty.string_of_uint d +:+ s).
Proof.
  intros Hd. destruct (NilEmpty.string_of_uint d) as [|c r] eqn:E.
  - now destruct d.
  - destruct (string_of_uint_head _ _ _ E) as [Hp Hm].
    change (String c r +:+ s) with (String c (r +:+ s)). unfold intOfString.
    destruct c as [[] [] [] [] [] [] [] []]; try reflexivity;
      exfalso; (now apply Hp) || (now apply Hm).
Qed.

(** A total from 0 to below 10^21 and a string of digits: [+=] appends
    the digits to the numeral of the total, and the cast rounds the number
    they denote to a double. *)
Lemma plusAssign_digits (a z : Z) (s : string) :
  0 <= a -> a < 10 ^ 21 -> digits s = Some z ->
  plusAssign a (JStr s) = Some (toDouble (a * 10 ^ Z.of_nat (String.length s) + z)).
Proof.
  intros Ha Ha' Hs. cbn [plusAssign jsString]. unfold numberOfString, numberString.
  destruct (Z.ltb_spec (Z.abs a) (10 ^ 21)); [|lia].
  destruct (string_of_Z_nonneg a Ha) as (d1 & -> & Hd1 & <-).
  destruct (digits_inv s z Hs) as (Hne & d2 & Hd2 & <-).
  rewrite intOfString_digit_head by assumption.
  unfold digits.
  rewrite (uint_of_string_app _ s d1 d2 (NilEmpty.usu d1) Hd2). cbn [option_map].
  rewrite of_uint_app, (usize_uint_of_string s d2 Hd2).
  destruct (NilEmpty.string_of_uint d1 +:+ s) eqn:E; [|reflexivity].
  destruct (NilEmpty.string_of_uint d1); [now destruct d1 | discriminate E].
Qed.

Lemma intOfString_of_digits (s : string) (z : Z) :
  digits s = Some z -> intOfString s = Some z.
Proof.
  intros H. destruct (digits_inv s z H) as (_ & d & Hd & _).
  destruct s as [|c r]; [discriminate H|].
  change (NilEmpty.uint_of_string (String c r))
    with (uint_of_char c (NilEmpty.uint_of_string r)) in Hd.
  destruct (NilEmpty.uint_of_string r) as [d'|]; [|discriminate Hd].
  apply uint_of_char_spec in Hd. unfold intOfString.
  destruct Hd as [[-> _]|[[-> _]|[[-> _]|[[-> _]|[[-> _]|[[-> _]|[[-> _]|[[-> _]|[[-> _]|[-> _]]]]]]]]]];
    exact H.
Qed.

Lemma uint_of_string_app_none (s1 s2 : string) :
  NilEmpty.uint_of_string s2 = None ->
  NilEmpty.uint_of_string (s1 +:+ s2) = None.
Proof.
  intros H. induction s1 as [|c s1 IH]; [exact H|].
  change (NilEmpty.uint_of_string (String c s1 +:+ s2))
    with (uint_of_char c (NilEmpty.uint_of_string (s1 +:+ s2))).
  now rewrite IH.
Qed.

(** A total that is not negative and a string that starts with a sign: the
    concatenation is not a numeral. *)
Lemma plusAssign_signed (a : Z) (r : string) :
  0 <= a -> plusAssign a (JStr (String "+" r)) = None.
Proof.
  intros Ha. cbn [plusAssign jsString]. unfold numberOfString, numberString.
  destruct (Z.abs a <? 10 ^ 21).
  - destruct (string_of_Z_nonneg a Ha) as (d1 & -> & Hd1 & _).
    rewrite intOfString_digit_head by assumption. unfold digits.
    rewrite uint_of_string_app_none.
    + now destruct (NilEmpty.string_of_uint d1 +:+ String "+" r).
    + change (NilEmpty.uint_of_string (String "+" r))
        with (uint_of_char "+" (NilEmpty.uint_of_string r)).
      now destruct (NilEmpty.uint_of_string r).
  - change ("e" +:+ String "+" r) with (String "e" (String "+" r)).
    unfold intOfString, digits.
    change (NilEmpty.uint_of_string (String "e" (String "+" r)))
      with (uint_of_char "e" (NilEmpty.uint_of_string (String "+" r))).
    now destruct (NilEmpty.uint_of_string (String "+" r)).
Qed.

(** X8.  A duration sent as a string of digits passes the validator, and the
    request appends the digits to the stored total instead of adding the
    number: when the old total is not negative and the number read from the
    two numerals together is at most 2^53, the new total is the old one
    times 10 to the number of digits, plus the number. *)
Theorem digit_string_is_appended (users : gmap string User) uid user s z now :
  users !! uid = Some user ->
  0 <= totalStudyTime (studyStats user) ->
  digits s = Some z -> 1 <= z ->
  totalStudyTime (studyStats user) * 10 ^ Z.of_nat (String.length s) + z <= 2 ^ 53 ->
  Spec.safeInteger (sessionsCompleted (studyStats user) + 1) ->
  exists user' new,
    post_study_time users uid (JStr s) now =
      (Ok (mkBody (studyStats user') new),
       <[uid := user']> users) /\
    totalStudyTime (studyStats user') =
      totalStudyTime (studyStats user) * 10 ^ Z.of_nat (String.length s) + z /\
    sessionsCompleted (studyStats user') = sessionsCompleted (studyStats user) + 1.
Proof.
  intros Hu Ht Hs Hz Hb Hss. unfold post_study_time, validDuration, isInt.
  cbn [toString toStringShallow jsString]. rewrite (intOfString_of_digits s z Hs).
  destruct (Z.leb_spec 1 z); [|lia]. cbn [negb]. rewrite Hu.
  assert (1 <= 10 ^ Z.of_nat (String.length s)) as Hp
    by (apply (Z.pow_le_mono_r 10 0); lia).
  assert (totalStudyTime (studyStats user) < 10 ^ 21) as Hlt.
  { apply Z.le_lt_trans with (2 ^ 53); [nia | reflexivity]. }
  unfold recordStudyTime. rewrite (plusAssign_digits _ z s Ht Hlt Hs).
  rewrite toDouble_safe by (unfold Spec.safeInteger; nia).
  unfold jsAdd. rewrite (toDouble_safe _ Hss).
  eexists _, _. split; [reflexivity|]. split; reflexivity.
Qed.

Lemma digit_string_is_appended_witness :
  exists user' new,
    post_study_time Examples.oneUser "u1" (JStr "10") Examples.t0 =
      (Ok (mkBody (studyStats user') new),
       <["u1" := user']> Examples.oneUser) /\
    totalStudyTime (studyStats user') = 55 * 10 ^ 2 + 10 /\
    sessionsCompleted (studyStats user') = 9 + 1.
Proof.
  apply (digit_string_is_appended Examples.oneUser "u1" Examples.ann "10" 10 Examples.t0).
  - reflexivity.
  - cbn. lia.
  - reflexivity.
  - lia.
  - cbn. lia.
  - unfold Spec.safeInteger. cbn. lia.
Defined.

(** X9.  A duration sent as digits after a plus sign passes the validator too,
    but the concatenation does not cast to a number: the reply is 500 and
    nothing is stored. *)
Theorem signed_string_fails_to_save (users : gmap string User) uid user r z now :
  users !! uid = Some user ->
  0 <= totalStudyTime (studyStats user) ->
  digits r = Some z -> 1 <= z ->
  validDuration (JStr (String "+" r)) = true /\
  post_study_time users uid (JStr (String "+" r)) now = (ServerError, users).
Proof.
  intros Hu Ht Hr Hz.
  assert (validDuration (JStr (String "+" r)) = true) as Hv.
  { unfold validDuration, isInt.
    cbn [toString toStringShallow jsString intOfString]. rewrite Hr.
    now apply Z.leb_le. }
  split; [exact Hv|]. unfold post_study_time. rewrite Hv. cbn [negb]. rewrite Hu.
  unfold recordStudyTime. now rewrite (plusAssign_signed _ r Ht).
Qed.

Lemma signed_string_fails_to_save_witness :
  validDuration (JStr "+10") = true /\
  post_study_time Examples.oneUser "u1" (JStr "+10") Examples.t0 =
    (ServerError, Examples.oneUser).
Proof.
  apply (signed_string_fails_to_save Examples.oneUser "u1" Examples.ann "10" 10 Examples.t0).
  - reflexivity.
  - cbn. lia.
  - reflexivity.
  - lia.
Defined.

(** ** Sorted queries with a limit *)

Section SortFacts.
Context {A : Type} (before : A -> A -> bool).

Lemma insertSorted_perm (x : A) (l : list A) :
  insertSorted before x l ≡ₚ x :: l.
Proof.
  induction l as [|y l IH]; cbn [insertSorted]; [reflexivity|].
  destruct (before x y); [reflexivity|]. rewrite IH. apply Permutation_swap.
Qed.

Lemma sortBy_perm (l : list A) : sortBy before l ≡ₚ l.
Proof.
  induction l as [|x l IH]; [reflexivity|].
  unfold sortBy. cbn [fold_right]. fold (sortBy before l).
  now rewrite insertSorted_perm, IH.
Qed.

Hypothesis before_total : forall a b, before a b = false -> before b a = true.
Hypothesis before_trans :
  forall a b c, before a b = true -> before b c = true -> before a c = true.

Lemma insertSorted_sorted (x : A) (l : list A) :
  StronglySorted (fun a b => before a b = true) l ->
  StronglySorted (fun a b => before a b = true) (insertSorted before x l).
Proof.
  induction l as [|y l IH]; intros Hl; cbn [insertSorted].
  - repeat constructor.
  - apply StronglySorted_inv in Hl as [Hl Hy].
    destruct (before x y) eqn:E.
    + constructor; [now constructor|]. constructor; [exact E|].
      eapply Forall_impl; [exact Hy|]. intros z Hz. now apply (before_trans x y z).
    + constructor; [now apply IH|].
      rewrite (insertSorted_perm x l). constructor; [now apply before_total | exact Hy].
Qed.

Lemma sortBy_sorted (l : list A) :
  StronglySorted (fun a b => before a b = true) (sortBy before l).
Proof.
  induction l as [|x l IH]; [constructor|].
  unfold sortBy. cbn [fold_right]. now apply insertSorted_sorted.
Qed.

Lemma elem_of_drop_lookup (l : list A) (n : nat) (y : A) :
  y ∈ drop n l -> exists i, l !! (n + i)%nat = Some y.
Proof.
  intros Hy. apply list_elem_of_lookup_1 in Hy as [i Hi].
  rewrite lookup_drop in Hi. now exists i.
Qed.

Lemma sorted_take (R : A -> A -> Prop) (l : list A) (n : nat) :
  StronglySorted R l -> StronglySorted R (take n l).
Proof.
  revert n. induction l as [|z l IH]; intros n Hl; [now destruct n|].
  apply StronglySorted_inv in Hl as [Hl Hz]. destruct n as [|n]; [constructor|].
  cbn [take]. constructor; [now apply IH | now apply Forall_take].
Qed.

Lemma sorted_take_drop (R : A -> A -> Prop) (l : list A) (n : nat) (x y : A) :
  StronglySorted R l -> x ∈ take n l -> y ∈ drop n l -> R x y.
Proof.
  revert n. induction l as [|z l IH]; intros n Hl Hx Hy.
  - destruct n; inversion Hx.
  - apply StronglySorted_inv in Hl as [Hl Hz]. destruct n as [|n].
    + inversion Hx.
    + cbn [take drop] in Hx, Hy. apply elem_of_cons in Hx as [->|Hx].
      * rewrite Forall_forall in Hz. apply Hz. now apply (subseteq_drop n l).
      * now apply (IH n).
Qed.

(** A query with a filter, a sort and a limit returns at most [n] records,
    in order, all of them matching; a matching record that is left out is
    left out because the limit is reached, and it comes after every record
    returned. *)
Lemma limited_query (f : A -> bool) (n : nat) (l : list A) :
  let r := take n (sortBy before (List.filter f l)) in
  (length r <= n)%nat /\
  length r = Nat.min n (length (List.filter f l)) /\
  StronglySorted (fun a b => before a b = true) r /\
  (forall x, x ∈ r -> x ∈ l /\ f x = true) /\
  (forall x, x ∈ l -> f x = true -> x ∉ r ->
             length r = n /\ forall y, y ∈ r -> before y x = true).
Proof.
  intros r. subst r. set (s := sortBy before (List.filter f l)).
  assert (s ≡ₚ List.filter f l) as Hp by apply sortBy_perm.
  assert (StronglySorted (fun a b => before a b = true) s) as Hs by apply sortBy_sorted.
  split; [apply firstn_le_length|].
  split; [now rewrite length_take, Hp|].
  split.
  { now apply sorted_take. }
  split.
  - intros x Hx. apply elem_of_take in Hx as (i & Hi & _).
    apply list_elem_of_lookup_2 in Hi. rewrite Hp in Hi.
    now apply list_elem_of_In, filter_In in Hi as [Hi Hf]; apply list_elem_of_In in Hi.
  - intros x Hx Hf Hnot.
    assert (x ∈ s) as Hxs.
    { rewrite Hp. apply list_elem_of_In, filter_In. split; [now apply list_elem_of_In|exact Hf]. }
    rewrite <- (take_drop n s) in Hxs. apply elem_of_app in Hxs as [Hxs|Hxs]; [contradiction|].
    split.
    + apply length_take_le. apply elem_of_drop_lookup in Hxs as (i & Hi).
      apply lookup_lt_Some in Hi. lia.
    + intros y Hy. exact (sorted_take_drop _ s n y x Hs Hy Hxs).
Qed.

End SortFacts.

Lemma leb_total (a b : Z) : (a <=? b) = false -> (b <=? a) = true.
Proof. intros H. apply Z.leb_le. apply Z.leb_gt in H. lia. Qed.

Lemma leb_trans (a b c : Z) :
  (a <=? b) = true -> (b <=? c) = true -> (a <=? c) = true.
Proof. rewrite !Z.leb_le. lia. Qed.

Lemma existsb_eqb_elem_of (uid : string) (l : list string) :
  existsb (String.eqb uid) l = true <-> uid ∈ l.
Proof. apply (includes_spec l uid). Qed.

(** X10.  The dashboard's recent groups are at most five active groups of the
    user, latest update first, and they are the latest: an active group of
    the user that is not returned is left out only when five are returned,
    and none of those was updated before it. *)
Theorem recent_groups_are_the_latest (db : Store) (uid : string) :
  let r := findRecentGroups db uid in
  (length r <= 5)%nat /\
  StronglySorted (fun g1 g2 => updatedAt g2 <= updatedAt g1) r /\
  (forall g, g ∈ r -> g ∈ groups db /\ uid ∈ members g /\ isActive g = true) /\
  (forall g, g ∈ groups db -> uid ∈ members g -> isActive g = true -> g ∉ r ->
             length r = 5%nat /\ forall g', g' ∈ r -> updatedAt g <= updatedAt g').
Proof.
  intros r. subst r. unfold findRecentGroups.
  destruct (limited_query (fun g1 g2 => updatedAt g2 <=? updatedAt g1)
              (fun a b => leb_total (updatedAt b) (updatedAt a))
              (fun a b c H1 H2 => leb_trans (updatedAt c) (updatedAt b) (updatedAt a) H2 H1)
              (fun g => existsb (String.eqb uid) (members g) && isActive g)
              5 (groups db)) as (Hlen & _ & Hs & Hin & Hout).
  split; [exact Hlen|]. split; [|split].
  - clear -Hs. induction Hs as [|g l Hl IH Hg]; constructor; [exact IH|].
    eapply Forall_impl; [exact Hg|]. intros g' Hg'. now apply Z.leb_le.
  - intros g Hg. apply Hin in Hg as [Hg Hf]. apply andb_true_iff in Hf as [Hm Ha].
    rewrite existsb_eqb_elem_of in Hm. tauto.
  - intros g Hg Hm Ha Hnot. destruct (Hout g Hg) as [H5 Hall]; [|exact Hnot|].
    + apply andb_true_iff. now rewrite existsb_eqb_elem_of.
    + split; [exact H5|]. intros g' Hg'. now apply Z.leb_le, Hall.
Qed.

(** X11.  The dashboard shows as many recent groups as [GET /stats] counts for
    the user, up to five. *)
Theorem recent_groups_count (db : Store) (uid : string) :
  length (findRecentGroups db uid) = Nat.min 5 (Stats.totalGroups db uid).
Proof.
  unfold findRecentGroups, Stats.totalGroups.
  now destruct (limited_query (fun g1 g2 => updatedAt g2 <=? updatedAt g1)
              (fun a b => leb_total (updatedAt b) (updatedAt a))
              (fun a b c H1 H2 => leb_trans (updatedAt c) (updatedAt b) (updatedAt a) H2 H1)
              (fun g => existsb (String.eqb uid) (members g) && isActive g)
              5 (groups db)) as (_ & Hlen & _).
Qed.

(** X12.  The dashboard's upcoming sessions are at most five sessions that the
    user hosts or takes part in, that start at [now] or later and are
    scheduled or active, earliest first, and they are the next ones: such a
    session that is not returned is left out only when five are returned,
    and none of those starts after it. *)
Theorem upcoming_sessions_are_the_next (db : Store) (uid : string) (now : Z) :
  let r := findUpcomingSessions db uid now in
  (length r <= 5)%nat /\
  StronglySorted (fun s1 s2 => scheduledStart s1 <= scheduledStart s2) r /\
  (forall s, s ∈ r ->
             s ∈ sessions db /\
             (host s = uid \/ participates uid s = true) /\
             now <= scheduledStart s /\
             (status s = "scheduled" \/ status s = "active")) /\
  (forall s, s ∈ sessions db ->
             host s = uid \/ participates uid s = true ->
             now <= scheduledStart s ->
             status s = "scheduled" \/ status s = "active" ->
             s ∉ r ->
             length r = 5%nat /\
             forall s', s' ∈ r -> scheduledStart s' <= scheduledStart s).
Proof.
  intros r. subst r. unfold findUpcomingSessions.
  set (f := fun s => (String.eqb (host s) uid || participates uid s)
                     && (now <=? scheduledStart s)
                     && (String.eqb (status s) "scheduled"
                         || String.eqb (status s) "active")).
  assert (forall s, f s = true <->
            (host s = uid \/ participates uid s = true) /\
            now <= scheduledStart s /\
            (status s = "scheduled" \/ status s = "active")) as Hf.
  { intros s. unfold f.
    rewrite !andb_true_iff, !orb_true_iff, !String.eqb_eq, Z.leb_le. tauto. }
  destruct (limited_query (fun s1 s2 => scheduledStart s1 <=? scheduledStart s2)
              (fun a b => leb_total (scheduledStart a) (scheduledStart b))
              (fun a b c => leb_trans (scheduledStart a) (scheduledStart b) (scheduledStart c))
              f 5 (sessions db)) as (Hlen & _ & Hs & Hin & Hout).
  split; [exact Hlen|]. split; [|split].
  - clear -Hs. induction Hs as [|s l Hl IH Hg]; constructor; [exact IH|].
    eapply Forall_impl; [exact Hg|]. intros s' Hs'. now apply Z.leb_le.
  - intros s Hs'. apply Hin in Hs' as [Hs' Hfs]. apply Hf in Hfs. tauto.
  - intros s Hs' Hh Hn Hst Hnot. destruct (Hout s Hs') as [H5 Hall]; [|exact Hnot|].
    + apply Hf. tauto.
    + split; [exact H5|]. intros s' Hs''. now apply Z.leb_le, Hall.
Qed.

(** ** The windows of the dashboard *)

Lemma todayStart_local (off now : Z) :
  todayStart off now + off = msPerDay * ((now + off) / msPerDay).
Proof.
  unfold todayStart, setHours0.
  pose proof (Z.div_mod (now + off) msPerDay ltac:(unfold msPerDay; lia)). lia.
Qed.

Lemma getDay_todayStart (off now : Z) :
  getDay off (todayStart off now) = getDay off now.
Proof.
  unfold getDay. rewrite todayStart_local.
  now rewrite Z.mul_comm, Z.div_mul by (unfold msPerDay; lia).
Qed.

Lemma weekStart_local (off now : Z) :
  weekStart off now + off =
  msPerDay * ((now + off) / msPerDay - getDay off now).
Proof.
  unfold weekStart, addDays. rewrite getDay_todayStart.
  pose proof (todayStart_local off now). lia.
Qed.

Lemma today_is_a_day_of_the_week (off now : Z) :
  todayStart off now = addDays (weekStart off now) (getDay off now) /\
  tomorrowStart off now = addDays (weekStart off now) (getDay off now + 1).
Proof.
  unfold tomorrowStart, weekStart, addDays. rewrite getDay_todayStart. lia.
Qed.

(** X13.  The windows the handler computes: the current instant lies in the
    window of today, which starts at a local midnight and lasts a day, and
    in the window of the week, which starts at the local midnight of a
    Sunday; today is the day of the week numbered [getDay]. *)
Theorem now_in_both_windows (off now : Z) :
  todayStart off now <= now < tomorrowStart off now /\
  tomorrowStart off now = todayStart off now + msPerDay /\
  Spec.timeOfDay off (todayStart off now) = 0 /\
  weekStart off now <= now < weekEnd off now /\
  Spec.timeOfDay off (weekStart off now) = 0 /\
  getDay off (weekStart off now) = 0 /\
  0 <= getDay off now < 7 /\
  todayStart off now = addDays (weekStart off now) (getDay off now).
Proof.
  assert (0 < msPerDay) as HD by (unfold msPerDay; lia).
  pose proof (Z.mod_pos_bound (now + off) msPerDay HD) as Hr.
  pose proof (Z.mod_pos_bound ((now + off) / msPerDay + 4) 7 ltac:(lia)) as Hg.
  fold (getDay off now) in Hg.
  destruct (today_is_a_day_of_the_week off now) as [Ht Hm].
  assert (todayStart off now <= now < tomorrowStart off now) as Hnow.
  { unfold tomorrowStart, addDays, todayStart, setHours0. lia. }
  split; [exact Hnow|].
  split; [unfold tomorrowStart, addDays; lia|].
  split.
  { unfold Spec.timeOfDay. rewrite todayStart_local, Z.mul_comm. now apply Z.mod_mul; lia. }
  split.
  { unfold weekEnd. rewrite Ht, Hm in Hnow. unfold addDays in *. nia. }
  split.
  { unfold Spec.timeOfDay. rewrite weekStart_local, Z.mul_comm. now apply Z.mod_mul; lia. }
  split.
  { unfold getDay at 1. rewrite weekStart_local, Z.mul_comm, Z.div_mul by lia.
    unfold getDay.
    replace ((now + off) / msPerDay - ((now + off) / msPerDay + 4) mod 7 + 4)
      with (((now + off) / msPerDay + 4) - ((now + off) / msPerDay + 4) mod 7) by lia.
    rewrite Zminus_mod, Z.mod_mod, Z.sub_diag by lia. reflexivity. }
  split; [exact Hg | exact Ht].
Qed.

(** ** The week as seven days *)








(** ** Participant entries *)

Lemma find_first_match {A : Type} (f : A -> bool) (pre post : list A) (p : A) :
  (forall q, q ∈ pre -> f q = false) -> f p = true ->
  find f (pre ++ p :: post) = Some p.
Proof.
  intros Hpre Hp. induction pre as [|q pre IH]; cbn [app find].
  - now rewrite Hp.
  - rewrite (Hpre q) by apply list_elem_of_here.
    apply IH. intros q' Hq'. apply Hpre. now apply list_elem_of_further.
Qed.

Lemma find_no_match {A : Type} (f : A -> bool) (l : list A) :
  (forall q, q ∈ l -> f q = false) -> find f l = None.
Proof.
  intros H. induction l as [|q l IH]; [reflexivity|]. cbn [find].
  rewrite (H q) by apply list_elem_of_here.
  apply IH. intros q' Hq'. apply H. now apply list_elem_of_further.
Qed.

(** X15.  Only the first entry of the user in [participants] counts: a session
    gives the duration of that entry, or 0 when that entry has none,
    whatever the entries after it say; a session without an entry of the
    user gives 0. *)
Theorem first_entry_decides (uid : string) (s : Session)
    (pre post : list Participant) (p : Participant) :
  (participants s = pre ++ p :: post ->
   (forall q, q ∈ pre -> p_user q <> uid) ->
   p_user p = uid ->
   userDuration uid s = match p_duration p with Some d => d | None => 0 end) /\
  ((forall q, q ∈ participants s -> p_user q <> uid) -> userDuration uid s = 0).
Proof.
  split.
  - intros Hs Hpre Hp. unfold userDuration. rewrite Hs.
    rewrite (find_first_match _ pre post p); [reflexivity| |now apply String.eqb_eq].
    intros q Hq. apply String.eqb_neq. now apply Hpre.
  - intros Hno. unfold userDuration. rewrite find_no_match; [reflexivity|].
    intros q Hq. apply String.eqb_neq. now apply Hno.
Qed.

(** ** Names in the session cards *)

Lemma whiteLen_cases (s : string) :
  whiteLen s = 0%nat \/
  (exists c r, s = String c r /\ whiteLen s = 1%nat) \/
  (exists c1 c2 r, s = String c1 (String c2 r) /\ whiteLen s = 2%nat) \/
  (exists c1 c2 c3 r, s = String c1 (String c2 (String c3 r)) /\ whiteLen s = 3%nat).
Proof.
  destruct s as [|c1 [|c2 [|c3 r]]]; unfold whiteLen.
  - now left.
  - destruct (asciiSpace c1); [right; left; eauto | now left].
  - destruct (asciiSpace c1); [right; left; eauto|].
    destruct (white2 _ _); [right; right; left; eauto | now left].
  - destruct (asciiSpace c1); [right; left; eauto|].
    destruct (white2 _ _); [right; right; left; eauto|].
    destruct (white3 _ _ _); [right; right; right; eauto 6 | now left].
Qed.

Lemma append_cons (c : ascii) (r x : string) :
  String c r +:+ x = String c (r +:+ x).
Proof. reflexivity. Qed.

Lemma append_nil (x : string) : EmptyString +:+ x = x.
Proof. reflexivity. Qed.

(** The white space character at the head of a string is at the head of
    every string that extends it. *)
Lemma whiteLen_app (t x : string) :
  whiteLen t <> 0%nat -> whiteLen (t +:+ x) = whiteLen t.
Proof.
  destruct t as [|c1 [|c2 [|c3 r]]]; rewrite ?append_cons, ?append_nil; unfold whiteLen.
  - intros H. now elim H.
  - destruct (asciiSpace c1); intros H; [reflexivity | now elim H].
  - destruct (asciiSpace c1); [reflexivity|].
    destruct (white2 _ _); intros H; [reflexivity | now elim H].
  - reflexivity.
Qed.

Lemma trimStart_0 (s : string) : whiteLen s = 0%nat -> trimStart s = s.
Proof. destruct s; [reflexivity|]. cbn [trimStart]. now intros ->. Qed.

Lemma allWhite_0 (c : ascii) (r : string) :
  whiteLen (String c r) = 0%nat -> allWhite (String c r) = false.
Proof. cbn [allWhite]. now intros ->. Qed.

Lemma length_whiteLen (s : string) : (whiteLen s <= String.length s)%nat.
Proof.
  destruct (whiteLen_cases s) as [->|[(c & r & -> & ->)|[(c1 & c2 & r & -> & ->)|
    (c1 & c2 & c3 & r & -> & ->)]]]; cbn [String.length]; lia.
Qed.

Lemma whiteLen_trimStart_bounded (n : nat) (s : string) :
  (String.length s <= n)%nat -> whiteLen (trimStart s) = 0%nat.
Proof.
  revert s. induction n as [|n IH]; intros s Hn.
  - destruct s; [reflexivity | cbn in Hn; lia].
  - destruct (whiteLen_cases s) as [H0|[(c & r & -> & H1)|[(c1 & c2 & r & -> & H2)|
      (c1 & c2 & c3 & r & -> & H3)]]].
    + now rewrite trimStart_0.
    + cbn [trimStart]. rewrite H1. apply IH. cbn in Hn. lia.
    + cbn [trimStart]. rewrite H2. apply IH. cbn in Hn. lia.
    + cbn [trimStart]. rewrite H3. apply IH. cbn in Hn. lia.
Qed.

(** What [trimStart] returns does not start with white space. *)
Lemma whiteLen_trimStart (s : string) : whiteLen (trimStart s) = 0%nat.
Proof. now apply (whiteLen_trimStart_bounded (String.length s)). Qed.

(** [trimEnd] cuts white space off the end, and nothing else. *)
Lemma trimEnd_split (s : string) :
  exists w, s = trimEnd s +:+ w /\ allWhite w = true.
Proof.
  induction s as [|c r IH].
  - now exists EmptyString.
  - cbn [trimEnd]. destruct (allWhite (String c r)) eqn:E.
    + now exists (String c r).
    + destruct IH as (w & Hr & Hw). exists w. split; [|exact Hw].
      rewrite append_cons. now rewrite <- Hr.
Qed.

Lemma allWhite_app_char (w tail : string) :
  w <> EmptyString -> whiteLen w = String.length w -> allWhite tail = true ->
  allWhite (w +:+ tail) = true.
Proof.
  intros Hne Hl Ht.
  assert (whiteLen (w +:+ tail) = whiteLen w) as Happ.
  { apply whiteLen_app. rewrite Hl. destruct w; [contradiction | discriminate]. }
  destruct (whiteLen_cases w) as [H0|[(c & r & -> & H1)|[(c1 & c2 & r & -> & H2)|
    (c1 & c2 & c3 & r & -> & H3)]]].
  - rewrite H0 in Hl. destruct w; [contradiction | discriminate].
  - rewrite H1 in Hl, Happ. destruct r; [|discriminate Hl].
    rewrite ?append_cons, ?append_nil in *. cbn [allWhite]. now rewrite Happ.
  - rewrite H2 in Hl, Happ. destruct r; [|discriminate Hl].
    rewrite ?append_cons, ?append_nil in *. cbn [allWhite]. now rewrite Happ.
  - rewrite H3 in Hl, Happ. destruct r; [|discriminate Hl].
    rewrite ?append_cons, ?append_nil in *. cbn [allWhite]. now rewrite Happ.
Qed.

Lemma append_empty (p w : string) : EmptyString = p +:+ w -> w = EmptyString.
Proof.
  destruct p; rewrite ?append_cons, ?append_nil; [congruence | discriminate].
Qed.

(** What [trimEnd] returns does not end with white space. *)
Lemma trimEnd_no_white_end (s : string) : ~ endsWithWhite (trimEnd s).
Proof.
  intros (p & w & E & Hw & Hl). revert p E.
  induction s as [|c r IH]; intros p E.
  - now apply append_empty in E.
  - cbn [trimEnd] in E. destruct (allWhite (String c r)) eqn:Ea.
    + now apply append_empty in E.
    + destruct p as [|a p']; rewrite ?append_cons, ?append_nil in E.
      * destruct (trimEnd_split r) as (tail & Hr & Ht).
        pose proof (allWhite_app_char w tail Hw Hl Ht) as Hall.
        rewrite <- E in Hall. rewrite append_cons in Hall.
        rewrite <- Hr in Hall. congruence.
      * injection E as _ E. exact (IH p' E).
Qed.

Lemma whiteLen_trim (s : string) : whiteLen (trim s) = 0%nat.
Proof.
  unfold trim. destruct (trimEnd_split (trimStart s)) as (w & Hs & _).
  destruct (Nat.eq_dec (whiteLen (trimEnd (trimStart s))) 0%nat) as [H|H]; [exact H|].
  pose proof (whiteLen_app _ w H) as Happ. rewrite <- Hs in Happ.
  rewrite whiteLen_trimStart in Happ. congruence.
Qed.

Lemma white2_high (b1 b2 : nat) :
  white2 b1 b2 = true -> (128 <= b1 /\ 128 <= b2)%nat.
Proof.
  unfold white2. rewrite andb_true_iff, !Nat.eqb_eq. lia.
Qed.

Lemma white3_high (b1 b2 b3 : nat) :
  white3 b1 b2 b3 = true -> (128 <= b1 /\ 128 <= b3)%nat.
Proof.
  unfold white3.
  rewrite ?orb_true_iff, ?andb_true_iff, ?orb_true_iff, ?andb_true_iff,
    ?Nat.eqb_eq, ?Nat.leb_le.
  lia.
Qed.

Lemma whiteLen_1 (c : ascii) (r : string) :
  whiteLen (String c r) = 1%nat -> asciiSpace c = true.
Proof.
  unfold whiteLen. destruct (asciiSpace c); [reflexivity|].
  destruct r as [|c2 [|c3 r]]; try discriminate.
  - destruct (white2 _ _); discriminate.
  - destruct (white2 _ _); [discriminate|]. destruct (white3 _ _ _); discriminate.
Qed.

Lemma whiteLen_2 (c1 c2 : ascii) (r : string) :
  whiteLen (String c1 (String c2 r)) = 2%nat ->
  white2 (nat_of_ascii c1) (nat_of_ascii c2) = true.
Proof.
  unfold whiteLen. destruct (asciiSpace c1); [discriminate|].
  destruct (white2 _ _); [reflexivity|].
  destruct r as [|c3 r]; [discriminate|]. destruct (white3 _ _ _); discriminate.
Qed.

Lemma whiteLen_3 (c1 c2 c3 : ascii) (r : string) :
  whiteLen (String c1 (String c2 (String c3 r))) = 3%nat ->
  white3 (nat_of_ascii c1) (nat_of_ascii c2) (nat_of_ascii c3) = true.
Proof.
  unfold whiteLen. destruct (asciiSpace c1); [discriminate|].
  destruct (white2 _ _); [discriminate|].
  destruct (white3 _ _ _); [reflexivity | discriminate].
Qed.

Lemma plainChar_high (c : ascii) :
  (128 <= nat_of_ascii c)%nat -> plainChar c = false.
Proof.
  intros H. unfold plainChar.
  destruct (Nat.ltb_spec (nat_of_ascii c) 128); [lia | apply andb_false_r].
Qed.

(** A string does not start with white space when its first byte is a
    plain character. *)
Lemma whiteLen_plain (a : ascii) (r : string) :
  plainChar a = true -> whiteLen (String a r) = 0%nat.
Proof.
  intros H. apply andb_true_iff in H as [Hs Hb].
  apply negb_true_iff in Hs. apply Nat.ltb_lt in Hb.
  unfold whiteLen. rewrite Hs.
  destruct r as [|c2 r2]; [reflexivity|].
  destruct (white2 _ _) eqn:E2; [apply white2_high in E2; lia|].
  destruct r2 as [|c3 r3]; [reflexivity|].
  destruct (white3 _ _ _) eqn:E3; [apply white3_high in E3; lia | reflexivity].
Qed.

(** The last byte of a string of white space is not a plain character. *)
Lemma allWhite_last (n : nat) (t : string) (c : ascii) :
  (String.length t <= n)%nat -> allWhite t = true -> lastChar t = Some c ->
  plainChar c = false.
Proof.
  revert t. induction n as [|n IH]; intros t Hn Ha Hc.
  - destruct t; [discriminate Hc | cbn in Hn; lia].
  - destruct (whiteLen_cases t) as [H0|[(a & r & -> & H1)|[(c1 & c2 & r & -> & H2)|
      (c1 & c2 & c3 & r & -> & H3)]]].
    + destruct t; [discriminate Hc|]. rewrite allWhite_0 in Ha by exact H0.
      discriminate Ha.
    + cbn [allWhite] in Ha. rewrite H1 in Ha. destruct r as [|b r'].
      * injection Hc as <-. apply whiteLen_1 in H1.
        unfold plainChar. now rewrite H1.
      * apply (IH (String b r')); [cbn in Hn |- *; lia | exact Ha | exact Hc].
    + cbn [allWhite] in Ha. rewrite H2 in Ha. destruct r as [|b r'].
      * injection Hc as <-. apply whiteLen_2, white2_high in H2.
        apply plainChar_high. lia.
      * apply (IH (String b r')); [cbn in Hn |- *; lia | exact Ha | exact Hc].
    + cbn [allWhite] in Ha. rewrite H3 in Ha. destruct r as [|b r'].
      * injection Hc as <-. apply whiteLen_3, white3_high in H3.
        apply plainChar_high. lia.
      * apply (IH (String b r')); [cbn in Hn |- *; lia | exact Ha | exact Hc].
Qed.

(** [trimEnd] leaves a string that ends with a plain character as it is. *)
Lemma trimEnd_plain_end (s : string) (c : ascii) :
  lastChar s = Some c -> plainChar c = true -> trimEnd s = s.
Proof.
  induction s as [|a s IH]; intros Hc Hp; [reflexivity|].
  cbn [trimEnd]. destruct (allWhite (String a s)) eqn:Ea.
  - pose proof (allWhite_last _ _ c (le_n _) Ea Hc). congruence.
  - f_equal. destruct s as [|b s']; [reflexivity|]. apply IH; [exact Hc | exact Hp].
Qed.

Lemma lastChar_append (s1 s2 : string) :
  s2 <> EmptyString -> lastChar (s1 +:+ s2) = lastChar s2.
Proof.
  intros H. induction s1 as [|a s1 IH]; [reflexivity|].
  change (String a s1 +:+ s2) with (String a (s1 +:+ s2)). cbn [lastChar].
  destruct (s1 +:+ s2) eqn:E; [|exact IH].
  destruct s1; [contradiction | discriminate E].
Qed.

Lemma lastChar_None (s : string) : lastChar s = None -> s = EmptyString.
Proof.
  induction s as [|a s IH]; [reflexivity|]. cbn [lastChar].
  destruct s; [discriminate|]. intros H. discriminate (IH H).
Qed.

Lemma lastChar_plainWord (s : string) (c : ascii) :
  plainWord s = true -> lastChar s = Some c -> plainChar c = true.
Proof.
  induction s as [|a s IH]; [discriminate|]. cbn [plainWord lastChar].
  intros H. apply andb_true_iff in H as [Ha Hs].
  destruct s; [now intros [= <-] | now apply IH].
Qed.

(** X16.  The names of a session card, the strings taken as UTF-8 bytes and
    white space as [String.prototype.trim] has it (U+00A0 and the other
    Unicode spaces included): the group name is never empty, and it is the
    placeholder when the session has no group or the group is gone; the
    host name neither starts nor ends with a white space character, is
    empty when the host is gone, and is the first and the last name with
    one space between them when both are non-empty words of ASCII
    characters other than white space. *)
Theorem session_card_names (db : Store) (s : Session) (h : User) :
  sc_groupName (formatSession db s) <> EmptyString /\
  (populateGroup db (group s) = None ->
   sc_groupName (formatSession db s) = "Unknown Group") /\
  (users db !! host s = None -> sc_host (formatSession db s) = EmptyString) /\
  whiteLen (sc_host (formatSession db s)) = 0%nat /\
  ~ endsWithWhite (sc_host (formatSession db s)) /\
  (users db !! host s = Some h ->
   firstName h <> EmptyString -> plainWord (firstName h) = true ->
   lastName h <> EmptyString -> plainWord (lastName h) = true ->
   sc_host (formatSession db s) = firstName h +:+ " " +:+ lastName h).
Proof.
  unfold formatSession. cbn [sc_groupName sc_host].
  split; [|split; [|split; [|split; [|split]]]].
  - destruct (populateGroup db (group s)) as [g|]; [|discriminate].
    destruct (String.eqb_spec (name g) EmptyString); [discriminate | assumption].
  - now intros ->.
  - now intros ->.
  - apply whiteLen_trim.
  - unfold trim. apply trimEnd_no_white_end.
  - intros -> Hf Hfs Hl Hls. unfold trim.
    destruct (firstName h) as [|a f] eqn:Ef; [contradiction|].
    assert (plainChar a = true) as Ha.
    { cbn [plainWord] in Hfs. now apply andb_true_iff in Hfs as [Ha _]. }
    rewrite append_cons. rewrite (trimStart_0 _ (whiteLen_plain a _ Ha)).
    rewrite <- append_cons.
    destruct (lastChar (lastName h)) as [z|] eqn:Ez.
    + apply (trimEnd_plain_end _ z); [|exact (lastChar_plainWord _ _ Hls Ez)].
      rewrite lastChar_append; [|now destruct (lastName h)].
      rewrite lastChar_append; assumption.
    + now apply lastChar_None in Ez.
Qed.

(** ** The dashboard after a study-time request *)

Lemma formatSession_names (db db' : Store) (s : Session) :
  groups db' = groups db ->
  (forall id, match users db' !! id, users db !! id with
              | Some u', Some u => firstName u' = firstName u /\ lastName u' = lastName u
              | None, None => True
              | _, _ => False
              end) ->
  formatSession db' s = formatSession db s.
Proof.
  intros Hg Hu. unfold formatSession, populateGroup. rewrite Hg.
  specialize (Hu (host s)).
  destruct (users db' !! host s) as [u'|], (users db !! host s) as [u|];
    try contradiction; [|reflexivity].
  destruct Hu as [-> ->]. reflexivity.
Qed.

(** X17.  A study-time request changes what the dashboard shows in one place
    only: the statistics become those of the reply.  The progress of today
    and of the week, which are summed over sessions, and the two lists stay
    as they were; the profile route returns the stored statistics.  The
    request carries a duration that the validator accepts, a number from 1
    to below 10^21. *)
Theorem dashboard_after_study_time (db : Store) uid user d t now off :
  users db !! uid = Some user -> 1 <= d -> d < 10 ^ 21 ->
  let db' := {| users := snd (post_study_time (users db) uid (JInt d) t);
                groups := groups db; sessions := sessions db |} in
  exists reply before after user',
    fst (post_study_time (users db) uid (JInt d) t) = Ok reply /\
    get_dashboard db uid now off = Ok before /\
    get_dashboard db' uid now off = Ok after /\
    Dashboard.stats after = StudyTime.stats reply /\
    recentGroups after = recentGroups before /\
    upcomingSessions after = upcomingSessions before /\
    todayProgress after = todayProgress before /\
    weekProgress after = weekProgress before /\
    get_profile (users db') uid = Ok user' /\
    studyStats user' = StudyTime.stats reply.
Proof.
  intros Hu Hd Hd' db'. subst db'.
  rewrite (post_study_time_JInt (users db) uid user d t Hu (validDuration_below d Hd Hd')).
  cbn [fst snd].
  set (db' := {| users := <[uid := userAfter user d t]> (users db);
                 groups := groups db; sessions := sessions db |}).
  assert (users db' !! uid = Some (userAfter user d t)) as Hu'
    by apply lookup_insert_eq.
  eexists _, _, _, (userAfter user d t).
  split; [reflexivity|].
  split; [apply (get_dashboard_found db uid now off user Hu)|].
  split; [apply (get_dashboard_found db' uid now off _ Hu')|].
  cbn [Dashboard.stats StudyTime.stats recentGroups upcomingSessions
       todayProgress weekProgress].
  split; [reflexivity|]. split; [reflexivity|]. split.
  { apply map_ext. intros s. apply formatSession_names; [reflexivity|].
    intros id. unfold db'. cbn [users].
    destruct (decide (id = uid)) as [->|Hne].
    - rewrite lookup_insert_eq, Hu. split; reflexivity.
    - rewrite lookup_insert_ne by congruence.
      now destruct (users db !! id). }
  split; [reflexivity|]. split; [reflexivity|].
  split; [|reflexivity]. unfold get_profile. now rewrite Hu'.
Qed.

Lemma dashboard_after_study_time_witness :
  exists reply before after user',
    fst (post_study_time Examples.oneUser "u1" (JInt 10) Examples.t0) = Ok reply /\
    get_dashboard Examples.busyStore "u1" Examples.t0 0 = Ok before /\
    get_dashboard
      {| users := snd (post_study_time Examples.oneUser "u1" (JInt 10) Examples.t0);
         groups := []; sessions := sessions Examples.busyStore |}
      "u1" Examples.t0 0 = Ok after /\
    Dashboard.stats after = StudyTime.stats reply /\
    recentGroups after = recentGroups before /\
    upcomingSessions after = upcomingSessions before /\
    todayProgress after = todayProgress before /\
    weekProgress after = weekProgress before /\
    get_profile (snd (post_study_time Examples.oneUser "u1" (JInt 10) Examples.t0)) "u1"
      = Ok user' /\
    studyStats user' = StudyTime.stats reply.
Proof.
  apply (dashboard_after_study_time Examples.busyStore "u1" Examples.ann 10
           Examples.t0 Examples.t0 0).
  - reflexivity.
  - lia.
  - reflexivity.
Defined.

(** ** The profile update *)

Lemma filterUpdates_lookup {V : Type} (updates : gmap string V) (key : string) :
  Profile.filterUpdates updates !! key =
  if includes Profile.allowedUpdates key then updates !! key else None.
Proof.
  unfold Profile.filterUpdates. revert key.
  apply (map_fold_weak_ind
           (fun (r : gmap string V) (m : gmap string V) =>
              forall key, r !! key =
                if includes Profile.allowedUpdates key then m !! key else None)).
  - intros key. rewrite lookup_empty. now destruct (includes _ key).
  - intros k v m r Hk IH key.
    destruct (decide (k = key)) as [->|Hne].
    + rewrite lookup_insert_eq. destruct (includes Profile.allowedUpdates key) eqn:E.
      * now rewrite lookup_insert_eq.
      * now rewrite IH, E.
    + rewrite (lookup_insert_ne m) by exact Hne.
      destruct (includes Profile.allowedUpdates k).
      * now rewrite lookup_insert_ne.
      * apply IH.
Qed.

(** X18.  The update that reaches the store holds exactly the allowed keys of the
    body, with the values of the body: a key outside the list, such as
    [studyStats], [lastStudyDate], [password] or [email], never gets
    through, an allowed key is never lost, and filtering twice changes
    nothing. *)
Theorem profile_update_keeps_allowed_keys {V : Type} (updates : gmap string V)
    (key : string) :
  (key ∉ Profile.allowedUpdates -> Profile.filterUpdates updates !! key = None) /\
  (key ∈ Profile.allowedUpdates ->
   Profile.filterUpdates updates !! key = updates !! key) /\
  Profile.filterUpdates updates ⊆ updates /\
  Profile.filterUpdates (Profile.filterUpdates updates) = Profile.filterUpdates updates /\
  Profile.filterUpdates updates !! "studyStats" = None /\
  Profile.filterUpdates updates !! "lastStudyDate" = None /\
  Profile.filterUpdates updates !! "password" = None /\
  Profile.filterUpdates updates !! "email" = None.
Proof.
  split; [|split; [|split; [|split]]].
  - intros H. rewrite filterUpdates_lookup.
    apply includes_false in H. now rewrite H.
  - intros H. rewrite filterUpdates_lookup.
    apply includes_spec in H. now rewrite H.
  - apply map_subseteq_spec. intros k v. rewrite filterUpdates_lookup.
    now destruct (includes Profile.allowedUpdates k).
  - apply map_eq. intros k. rewrite !filterUpdates_lookup.
    now destruct (includes Profile.allowedUpdates k).
  - repeat split; now rewrite filterUpdates_lookup.
Qed.

(** ** Replies and the store *)

(** X2.  A request that is not answered with 200 leaves the store exactly as it
    was, and the handler never answers 404. *)
Theorem errors_leave_store_unchanged (users : gmap string User) uid (v : jsval) now :
  ((forall body, fst (post_study_time users uid v now) <> Ok body) ->
   snd (post_study_time users uid v now) = users) /\
  fst (post_study_time users uid v now) <> NotFound.
Proof.
  unfold post_study_time.
  destruct (validDuration v); cbn [negb]; [|split; [reflexivity|discriminate]].
  destruct (users !! uid) as [user|]; [|split; [reflexivity|discriminate]].
  destruct (recordStudyTime user v now) as [[user' new]|];
    [|split; [reflexivity|discriminate]].
  cbn [fst snd]. split; [|discriminate].
  intros H. now destruct (H (mkBody (studyStats user') new)).
Qed.

(** X7.  After every request the user holds each achievement whose threshold
    the stored statistics reach. *)
Theorem reached_thresholds_are_held (user : User) (d today : Z) (id : string) :
  id ∈ Spec.checkOrder ->
  Spec.thresholdReached id (studyStats (userAfter user d today)) = true ->
  id ∈ achievements (studyStats (userAfter user d today)).
Proof.
  intros Hid Hth. rewrite achievements_after, elem_of_app.
  destruct (includes (achievements (studyStats user)) id) eqn:E.
  - left. now apply includes_spec.
  - right. apply elem_of_unlockedBy. apply includes_false in E. tauto.
Qed.

Lemma reached_thresholds_are_held_witness :
  "week-streak" ∈ achievements (studyStats (userAfter Examples.ann 10 Examples.t0)).
Proof.
  apply (reached_thresholds_are_held Examples.ann 10 Examples.t0 "week-streak").
  - unfold Spec.checkOrder. apply list_elem_of_In. cbn. tauto.
  - reflexivity.
Defined.

(** ** The study-time card of the dashboard page *)



(** ** The properties above on the sample data *)

(** Of the six active groups of [u1] the five latest are returned, and the
    one left out, updated at 10, is older than each of them. *)
Lemma recent_groups_are_the_latest_witness :
  map gid (findRecentGroups Samples.clubStore "u1") = ["b"; "e"; "g"; "a"; "f"] /\
  forall g', g' ∈ findRecentGroups Samples.clubStore "u1" -> 10 <= updatedAt g'.
Proof.
  split; [reflexivity|].
  destruct (recent_groups_are_the_latest Samples.clubStore "u1") as (_ & _ & _ & Hout).
  apply (Hout (Samples.club "c" 10 true)).
  - apply list_elem_of_In. cbn. tauto.
  - apply list_elem_of_In. cbn. tauto.
  - reflexivity.
  - intros H. apply list_elem_of_In in H. cbn in H.
    repeat (destruct H as [H|H]; [discriminate H|]). exact H.
Defined.

(** Of the four sessions hosted by [u1] the past one and the cancelled one
    are left out, and the active one, which starts first, comes first. *)
Lemma upcoming_sessions_are_the_next_witness :
  map sid (findUpcomingSessions Samples.clubStore "u1" Examples.t0) = ["r"; "p"] /\
  forall s, s ∈ findUpcomingSessions Samples.clubStore "u1" Examples.t0 ->
            Examples.t0 <= scheduledStart s.
Proof.
  split; [reflexivity|]. intros s Hs.
  destruct (upcoming_sessions_are_the_next Samples.clubStore "u1" Examples.t0)
    as (_ & _ & Hin & _).
  now destruct (Hin s Hs) as (_ & _ & Hnow & _).
Defined.

(** The user is entered twice, first without a duration: the session
    counts for 0, not for the 25 minutes of the second entry. *)
Lemma first_entry_decides_witness : userDuration "u1" Samples.twice = 0.
Proof.
  destruct (first_entry_decides "u1" Samples.twice
              [ {| p_user := "u9"; p_duration := Some 60 |} ]
              [ {| p_user := "u1"; p_duration := Some 25 |} ]
              {| p_user := "u1"; p_duration := None |}) as [H _].
  apply H.
  - reflexivity.
  - intros q Hq. apply list_elem_of_In in Hq. cbn in Hq.
    destruct Hq as [<-|[]]. discriminate.
  - reflexivity.
Defined.

(** A session of [u1] whose group does not exist: the card names the host
    in full and the group by the placeholder. *)
Lemma session_card_names_witness :
  sc_host (formatSession Samples.clubStore
             (Samples.upcoming "p" (Examples.t0 + 5) "scheduled")) = "Ann Lee" /\
  sc_groupName (formatSession Samples.clubStore
                  (Samples.upcoming "p" (Examples.t0 + 5) "scheduled")) = "Unknown Group".
Proof.
  destruct (session_card_names Samples.clubStore
              (Samples.upcoming "p" (Examples.t0 + 5) "scheduled") Examples.ann)
    as (_ & Hg & _ & _ & _ & Hh).
  split.
  - apply Hh; try reflexivity; discriminate.
  - apply Hg. reflexivity.
Defined.

(** A body that names [studyStats] and [password] beside two allowed keys:
    only the allowed keys get through. *)
Lemma profile_update_keeps_allowed_keys_witness :
  Profile.filterUpdates Samples.greedyBody !! "studyStats" = None /\
  Profile.filterUpdates Samples.greedyBody !! "password" = None /\
  Profile.filterUpdates Samples.greedyBody !! "firstName" = Some (JStr "Ann") /\
  Profile.filterUpdates Samples.greedyBody !! "bio" = Some (JStr "hello").
Proof.
  destruct (profile_update_keeps_allowed_keys Samples.greedyBody "firstName")
    as (_ & Hf & _ & _ & Hs & _ & Hp & _).
  destruct (profile_update_keeps_allowed_keys Samples.greedyBody "bio")
    as (_ & Hb & _).
  split; [exact Hs|]. split; [exact Hp|]. split.
  - rewrite Hf; [reflexivity|]. apply list_elem_of_In. cbn. tauto.
  - rewrite Hb; [reflexivity|]. apply list_elem_of_In. cbn. tauto.
Defined.
